(** * brokers-mcp: the simulated order book and the bar fetcher

    A shallow embedding of
    - [common_lib/alpaca_helpers/simulation/simulation_trading_client.py] and
      the table declared in [simulation_trading_db.py] (module [Simulation]);
    - [market_data_service/src/alpaca_api/market_data.py] (module
      [MarketData]).

    Python exceptions are values of [Py.exn]; a call that may raise returns a
    [Py.result].  The [orders] table is a finite map from the primary key to
    the remaining columns; an operation runs in one transaction, so a call
    that raises leaves the table as it found it. *)

From Stdlib Require Import ZArith Lia List String Ascii Bool Floats.
From stdpp Require Import gmap strings list fin_maps.

Set Warnings "-inexact-float".
Local Open Scope Z_scope.

(** ** Python values shared by both services *)

Module Py.

(** [uuid.UUID]: a 128-bit number. *)
Abbreviation UUID := N (only parsing).

(** [datetime]: microseconds since the epoch. *)
Abbreviation datetime := Z (only parsing).

(** The exceptions the embedded code raises, one constructor per raise site
    (the f-string messages keep their arguments). *)
Inductive exn : Type :=
| ValueError_order_not_found (order_id : UUID)
| ValueError_already_canceled (order_id : UUID)
| Exception_only_full_liquidation
| AttributeError_NoneType (attribute : string)
| IntegrityError_not_null (column : string)
| IntegrityError_primary_key (key : UUID)
| ValueError_unsupported_unit (unit : string)
| ValueError_unknown_unit (unit : string)
| ValueError_timeframe (amount : Z)
| AttributeError_RangeIndex (attribute : string)
| ZeroDivisionError
| UpstreamError (message : string).

Inductive result (A : Type) : Type :=
| Ok (a : A)
| Raise (e : exn).

Arguments Ok {A} a.
Arguments Raise {A} e.

#[export] Instance result_ret : MRet result := @Ok.

#[export] Instance result_bind : MBind result :=
  fun A B f m => match m with Ok a => f a | Raise e => Raise e end.

(** Truth value of a float: [bool(x)] is [x != 0.0] (a NaN is true). *)
Definition truthy (x : float) : bool := negb (PrimFloat.is_zero x).

(** Truth value of an [Optional[float]]. *)
Definition truthy_opt (x : option float) : bool :=
  match x with
  | Some v => truthy v
  | None => false
  end.

(** Truth value of an [Optional[str]]: [None] and the empty string are false. *)
Definition truthy_str (x : option string) : bool :=
  match x with
  | Some EmptyString => false
  | Some _ => true
  | None => false
  end.

End Py.

Import Py.

(** ** The order simulation *)

Module Simulation.

(** *** Enumerations of [alpaca.trading.enums] *)

Inductive OrderSide : Type := BUY | SELL.

Inductive OrderType : Type := MARKET | LIMIT | STOP | STOP_LIMIT | TRAILING_STOP.

Inductive OrderClass : Type := SIMPLE | BRACKET | OCO | OTO | MLEG.

Inductive TimeInForce : Type := DAY | GTC | OPG | CLS | IOC | FOK.

Inductive OrderStatus : Type :=
| NEW | PARTIALLY_FILLED | FILLED | DONE_FOR_DAY | CANCELED | EXPIRED
| REPLACED | PENDING_CANCEL | PENDING_REPLACE | PENDING_REVIEW | ACCEPTED
| PENDING_NEW | ACCEPTED_FOR_BIDDING | STOPPED | REJECTED | SUSPENDED
| CALCULATED | HELD.

#[export] Instance OrderType_eq_dec : EqDecision OrderType.
Proof. solve_decision. Defined.

#[export] Instance OrderStatus_eq_dec : EqDecision OrderStatus.
Proof. solve_decision. Defined.

(** *** The [orders] table ([simulation_trading_db.Order])

    The primary key [id] is the key of the map; the record holds the other
    columns.  A column the client may hand over as [None] is an [option],
    whatever the table says about it: the table's [nullable=False] is
    enforced when the row is flushed ([flush_insert]). *)
Record Order : Type := mkOrder {
  instrument : string;
  quantity : float;
  side : option OrderSide;
  entry_price : option float;
  take_profit_price : option float;
  stop_loss_price : option float;
  order_type : OrderType;
  order_class : OrderClass;
  time_in_force : TimeInForce;
  status : OrderStatus;
  created_timestamp : datetime;
  updated_timestamp : datetime
}.

Abbreviation OrderStore := (gmap N Order) (only parsing).

(** *** Requests of [alpaca.trading.requests] *)

Record TakeProfitRequest : Type := { tp_limit_price : float }.

Record StopLossRequest : Type := { sl_stop_price : float }.

(** [OrderRequest] and its subclasses; [limit_price] is [None] on a request
    that carries none. *)
Record OrderRequest : Type := mkOrderRequest {
  symbol : string;
  qty : option float;
  req_side : option OrderSide;
  type : OrderType;
  req_time_in_force : TimeInForce;
  limit_price : option float;
  req_order_class : option OrderClass;
  take_profit : option TakeProfitRequest;
  stop_loss : option StopLossRequest
}.

Record ReplaceOrderRequest : Type := mkReplaceOrderRequest {
  new_qty : option float;
  new_time_in_force : option TimeInForce;
  new_limit_price : option float;
  new_stop_price : option float
}.

Record ClosePositionRequest : Type := {
  close_qty : option string;
  percentage : option string
}.

(** *** Responses ([simulation_db_responses]) *)

Record SubmitOrderResponse : Type := {
  submit_status : OrderStatus;
  submit_id : UUID
}.

Record FetchOrderResponse : Type := {
  fetch_status : OrderStatus;
  fetch_id : UUID
}.

Record CancelOrderResponse : Type := {
  cancel_status : OrderStatus;
  cancel_id : UUID
}.

Record ModifyOrderResponse : Type := {
  modify_status : OrderStatus;
  modify_id : UUID;
  modify_qty : float;
  modify_limit_price : option float;
  modify_stop_price : option float
}.

(** *** The session

    [flush_insert] is the INSERT that [session.commit()] issues for an added
    row: the key comes from [uuid.uuid4] (the column default), the
    [nullable=False] columns [side] and [entry_price] reject NULL, and the
    primary key rejects a key that is taken. *)
Definition flush_insert (uuid4 : UUID) (row : Order) (session : OrderStore)
  : result OrderStore :=
  match side row, entry_price row with
  | None, _ => Raise (IntegrityError_not_null "side")
  | Some _, None => Raise (IntegrityError_not_null "entry_price")
  | Some _, Some _ =>
      match session !! uuid4 with
      | Some _ => Raise (IntegrityError_primary_key uuid4)
      | None => Ok (<[uuid4 := row]> session)
      end
  end.

(** A row with [status] and [updated_timestamp] assigned. *)
Definition with_status (st : OrderStatus) (now : datetime) (o : Order) : Order :=
  {| instrument := instrument o;
     quantity := quantity o;
     side := side o;
     entry_price := entry_price o;
     take_profit_price := take_profit_price o;
     stop_loss_price := stop_loss_price o;
     order_type := order_type o;
     order_class := order_class o;
     time_in_force := time_in_force o;
     status := st;
     created_timestamp := created_timestamp o;
     updated_timestamp := now |}.

(** *** [SimulationTradingClient] *)

Definition _get_order_by_id (order_id : UUID) (session : OrderStore)
  : result Order :=
  match session !! order_id with
  | Some order => Ok order
  | None => Raise (ValueError_order_not_found order_id)
  end.

(** The entry price [_create_order] computes. *)
Definition create_entry_price (order_data : OrderRequest) : option float :=
  if bool_decide (type order_data = LIMIT) && truthy_opt (limit_price order_data)
  then limit_price order_data
  else None.

(** The row [_create_order] builds; the two timestamps are the server
    defaults ([func.now()]). *)
Definition new_order_row (db_now : datetime) (order_data : OrderRequest) : Order :=
  {| instrument := symbol order_data;
     quantity := match qty order_data with
                 | Some q => if truthy q then q else 0%float
                 | None => 0%float
                 end;
     side := req_side order_data;
     entry_price := create_entry_price order_data;
     take_profit_price := match take_profit order_data with
                          | Some tp => Some (tp_limit_price tp)
                          | None => None
                          end;
     stop_loss_price := match stop_loss order_data with
                        | Some sl => Some (sl_stop_price sl)
                        | None => None
                        end;
     order_type := type order_data;
     order_class := match req_order_class order_data with
                    | Some c => c
                    | None => SIMPLE
                    end;
     time_in_force := req_time_in_force order_data;
     status := NEW;
     created_timestamp := db_now;
     updated_timestamp := db_now |}.

Definition _create_order (uuid4 : UUID) (db_now : datetime)
    (order_data : OrderRequest) (session : OrderStore)
  : result (UUID * Order * OrderStore) :=
  let new_order := new_order_row db_now order_data in
  session' ← flush_insert uuid4 new_order session;
  mret (uuid4, new_order, session').

(** The request is a [LimitOrderRequest], whose constructor sets the type to
    LIMIT whatever [type] argument it is given.  The request is built
    without legs, which are assigned afterwards; whether the constructor
    lets a class other than SIMPLE through in that state depends on the
    version of the request library, and every class passes here. *)
Definition _prepare_new_order_request (existing_order : Order)
    (new_order_data : ReplaceOrderRequest) : OrderRequest :=
  {| symbol := instrument existing_order;
     qty := Some (match new_qty new_order_data with
                  | Some q => q
                  | None => quantity existing_order
                  end);
     req_side := side existing_order;
     type := LIMIT;
     req_time_in_force := match new_time_in_force new_order_data with
                          | Some t => t
                          | None => time_in_force existing_order
                          end;
     limit_price := match new_limit_price new_order_data with
                    | Some p => Some p
                    | None => entry_price existing_order
                    end;
     req_order_class := Some (order_class existing_order);
     take_profit := match take_profit_price existing_order with
                    | Some p => if truthy p
                                then Some {| tp_limit_price := p |}
                                else None
                    | None => None
                    end;
     stop_loss := match new_stop_price new_order_data with
                  | Some p => if truthy p
                              then Some {| sl_stop_price := p |}
                              else None
                  | None => None
                  end |}.

Definition submit_order (uuid4 : UUID) (db_now : datetime)
    (order_data : OrderRequest) (db : OrderStore)
  : result (SubmitOrderResponse * OrderStore) :=
  '(new_id, new_order, db') ← _create_order uuid4 db_now order_data db;
  mret ({| submit_status := status new_order; submit_id := new_id |}, db').

Definition get_order_by_id (order_id : UUID) (db : OrderStore)
  : result FetchOrderResponse :=
  order ← _get_order_by_id order_id db;
  mret {| fetch_status := status order; fetch_id := order_id |}.

Definition cancel_order_by_id (utcnow : datetime) (order_id : UUID)
    (db : OrderStore) : result (CancelOrderResponse * OrderStore) :=
  order ← _get_order_by_id order_id db;
  let order' := with_status CANCELED utcnow order in
  mret ({| cancel_status := status order'; cancel_id := order_id |},
        <[order_id := order']> db).

Definition replace_order_by_id (uuid4 : UUID) (utcnow db_now : datetime)
    (order_id : UUID) (new_order_data : ReplaceOrderRequest) (db : OrderStore)
  : result (ModifyOrderResponse * OrderStore) :=
  existing_order ← _get_order_by_id order_id db;
  if bool_decide (status existing_order = CANCELED)
  then Raise (ValueError_already_canceled order_id)
  else
    let existing_order' := with_status CANCELED utcnow existing_order in
    let session := <[order_id := existing_order']> db in
    let new_order_request :=
      _prepare_new_order_request existing_order' new_order_data in
    '(new_id, new_order, session') ←
      _create_order uuid4 db_now new_order_request session;
    mret ({| modify_status := status new_order;
             modify_id := new_id;
             modify_qty := quantity new_order;
             modify_limit_price := if truthy_opt (entry_price new_order)
                                   then entry_price new_order else None;
             modify_stop_price := if truthy_opt (stop_loss_price new_order)
                                  then stop_loss_price new_order else None |},
          session').

(** The bulk UPDATE of [close_position], row by row. *)
Definition fill_if_open (utcnow : datetime) (symbol_or_asset_id : string)
    (o : Order) : Order :=
  if bool_decide (status o = NEW)
     && bool_decide (instrument o = symbol_or_asset_id)
  then with_status FILLED utcnow o
  else o.

Definition close_position (utcnow : datetime) (symbol_or_asset_id : string)
    (close_options : option ClosePositionRequest) (db : OrderStore)
  : result (unit * OrderStore) :=
  match close_options with
  | None => Raise (AttributeError_NoneType "percentage")
  | Some options =>
      if negb (truthy_str (percentage options))
         || negb (bool_decide (percentage options = Some "100"%string))
      then Raise Exception_only_full_liquidation
      else mret (tt, fill_if_open utcnow symbol_or_asset_id <$> db)
  end.

(** The table after a call: the committed one, or the one before when the
    call raised (the session is closed without a commit). *)
Definition table_after {A : Type} (db : OrderStore)
    (r : result (A * OrderStore)) : OrderStore :=
  match r with
  | Ok (_, db') => db'
  | Raise _ => db
  end.

(** *** Tables and requests the client meets *)

(** A row as [_create_order] gets it past [flush_insert]: a side, and a
    limit order whose entry price is a true float. *)
Definition created_by_client (o : Order) : Prop :=
  is_Some (side o)
  /\ order_type o = LIMIT
  /\ exists p, entry_price o = Some p /\ truthy p = true.

(** A replacement whose limit price, when one is given, is not zero.  A
    request with [limit_price=0] does reach [replace_order_by_id]; it is
    not one of these. *)
Definition valid_replace (r : ReplaceOrderRequest) : Prop :=
  forall p, new_limit_price r = Some p -> truthy p = true.

(** The tables the client can have produced, from the empty one, by its
    four writing calls with any arguments. *)
Inductive reachable : OrderStore -> Prop :=
| reach_empty : reachable ∅
| reach_submit uuid4 db_now order_data db :
    reachable db ->
    reachable (table_after db (submit_order uuid4 db_now order_data db))
| reach_cancel utcnow order_id db :
    reachable db ->
    reachable (table_after db (cancel_order_by_id utcnow order_id db))
| reach_replace uuid4 utcnow db_now order_id new_order_data db :
    reachable db ->
    reachable (table_after db
                 (replace_order_by_id uuid4 utcnow db_now order_id
                    new_order_data db))
| reach_close utcnow symbol_or_asset_id close_options db :
    reachable db ->
    reachable (table_after db
                 (close_position utcnow symbol_or_asset_id close_options db)).

End Simulation.

(** ** The bar fetcher *)

Module MarketData.

(** *** [alpaca.data.timeframe] *)

Inductive TimeFrameUnit : Type := Minute | Hour | Day | Week | Month.

Record TimeFrame : Type := { amount : Z; tf_unit : TimeFrameUnit }.

(** [TimeFrame.validate_timeframe]: the amount is positive, at most 59 for
    minutes and 23 for hours, 1 for days and weeks, and 1, 2, 3, 6 or 12 for
    months. *)
Definition validate_timeframe (n : Z) (unit : TimeFrameUnit) : bool :=
  (0 <? n)
  && match unit with
     | Minute => n <=? 59
     | Hour => n <=? 23
     | Day | Week => n =? 1
     | Month => (n =? 1) || (n =? 2) || (n =? 3) || (n =? 6) || (n =? 12)
     end.

(** The constructor [TimeFrame(amount, unit)], which raises a [ValueError]
    on a pair that [validate_timeframe] turns down. *)
Definition TimeFrame_init (n : Z) (unit : TimeFrameUnit) : result TimeFrame :=
  if validate_timeframe n unit
  then Ok {| amount := n; tf_unit := unit |}
  else Raise (ValueError_timeframe n).

(** *** Strings *)

(** [str.upper] on ASCII text. *)
Definition upper_ascii (c : ascii) : ascii :=
  let n := N_of_ascii c in
  if ((97 <=? n) && (n <=? 122))%N then ascii_of_N (n - 32) else c.

Fixpoint upper (s : string) : string :=
  match s with
  | EmptyString => EmptyString
  | String c rest => String (upper_ascii c) (upper rest)
  end.

(** [s.split(sep)] for a one-character separator. *)
Fixpoint split (sep : ascii) (s : string) : list string :=
  match s with
  | EmptyString => [EmptyString]
  | String c rest =>
      if Ascii.eqb c sep then EmptyString :: split sep rest
      else match split sep rest with
           | piece :: pieces => String c piece :: pieces
           | [] => [String c EmptyString]
           end
  end.

(** [max] of a generator over a list that is not empty. *)
Definition py_max (l : list Z) : Z :=
  match l with
  | [] => 0
  | x :: rest => fold_left Z.max rest x
  end.

(** [a // b] on integers. *)
Definition floordiv (a b : Z) : result Z :=
  if b =? 0 then Raise ZeroDivisionError else Ok (a / b).

(** *** Units and look-back *)

Definition get_timeframe (unit : string) (bar_size : Z) : result TimeFrame :=
  let unit := upper unit in
  if String.eqb unit "MINUTE" then
    if bar_size <=? 59
    then TimeFrame_init bar_size Minute
    else TimeFrame_init (bar_size / 60) Hour
  else if String.eqb unit "HOUR" then
    TimeFrame_init bar_size Hour
  else if String.eqb unit "DAILY" then
    TimeFrame_init bar_size Day
  else if String.eqb unit "WEEKLY" then
    TimeFrame_init bar_size Week
  else if String.eqb unit "MONTHLY" then
    TimeFrame_init bar_size Month
  else Raise (ValueError_unsupported_unit unit).

Definition default_bars_back (unit : string) (bar_size : Z) : result Z :=
  let unit := upper unit in
  if String.eqb unit "MINUTE" && (bar_size <? 5) then
    floordiv 120 bar_size
  else if String.eqb unit "MINUTE" && (bar_size <? 15) then
    floordiv (60 * 7) bar_size
  else if String.eqb unit "MINUTE" && (bar_size <? 30) then
    floordiv (60 * 13) bar_size
  else if String.eqb unit "HOUR" then
    floordiv (5 * 24) bar_size
  else if String.eqb unit "DAILY" then
    floordiv 30 bar_size
  else if String.eqb unit "WEEKLY" then
    floordiv 26 bar_size
  else if String.eqb unit "MONTHLY" then
    floordiv 12 bar_size
  else Raise (ValueError_unknown_unit unit).

(** A [pandas] offset and the start of the window: the current market time
    less [steps] times [interval].  The subtraction is kept symbolic;
    [pandas] carries it out only when the result is a [Timestamp] it can
    represent ([Windows.window_fits] below is a reach for which it is). *)
Inductive Offset : Type :=
| BusinessHour (n : Z)
| BDay (n : Z).

Record WindowStart : Type := { interval : Offset; steps : Z }.

(** The [Hour] to [Monthly] branches of [bars_back_to_datetime]. *)
Definition bars_back_to_datetime_interval (unit : string) (bar_size : Z)
  : result Offset :=
  if String.eqb unit "Hour" then Ok (BusinessHour bar_size)
  else if String.eqb unit "Daily" then Ok (BDay bar_size)
  else if String.eqb unit "Weekly" then Ok (BDay (5 * bar_size))
  else if String.eqb unit "Monthly" then Ok (BDay (21 * bar_size))
  else Raise (ValueError_unknown_unit unit).

(** [bars_back_to_datetime]; its [Minute] branch calls itself once, on
    [("Hour", 1, hours)]. *)
Definition bars_back_to_datetime (unit : string) (bar_size bars_back : Z)
  : result WindowStart :=
  if String.eqb unit "Minute" then
    let total_minutes := bars_back * bar_size in
    let hours := total_minutes / 60 + 1 in
    i ← bars_back_to_datetime_interval "Hour" 1;
    mret {| interval := i; steps := hours + 10 |}
  else
    i ← bars_back_to_datetime_interval unit bar_size;
    mret {| interval := i; steps := bars_back + 10 |}.

(** *** Bars *)

(** A bar's timestamp after the conversion to US/Eastern: the date as its
    proleptic ordinal ([date.toordinal], day 1 is a Monday) and the time of
    day. *)
Record Timestamp : Type := {
  ordinal : Z;
  hour : Z;
  minute : Z;
  second : Z
}.

(** [DatetimeIndex.dayofweek]: Monday is 0. *)
Definition dayofweek (t : Timestamp) : Z := (ordinal t + 6) mod 7.

(** A row of [bars_df] once [trade_count] is dropped and [volume] is an
    integer. *)
Record Bar : Type := {
  timestamp : Timestamp;
  open : float;
  high : float;
  low : float;
  close : float;
  volume : Z
}.

(** The request sent to the data source.  Its [end] is the current market
    time and its [adjustment] and [feed] are the constants "all" and "sip";
    [asof_today] says whether [asof] is set (to today's date). *)
Record StockBarsRequest : Type := {
  symbol_or_symbols : string;
  timeframe : TimeFrame;
  start : WindowStart;
  asof_today : bool
}.

(** The mask of the outside-hours filter. *)
Definition regular_hours (t : Timestamp) : bool :=
  (dayofweek t <? 5)
  && (((hour t =? 9) && (minute t >=? 30))
      || ((hour t >? 9) && (hour t <? 16))
      || ((hour t =? 16) && (minute t =? 0))).

(** [unit.upper() in ["MINUTE", "HOUR"]]. *)
Definition intraday (unit : string) : bool :=
  String.eqb (upper unit) "MINUTE" || String.eqb (upper unit) "HOUR".

(** [int(bars_back * 3.7)]: the product truncated toward zero.  The source
    multiplies in binary64; the exact quotient below is the same integer for
    every count below 10^14 ([float_int_mul_3_7] is the binary64
    computation, compared in [int_mul_3_7_binary64]). *)
Definition int_mul_3_7 (bars_back : Z) : Z := Z.quot (37 * bars_back) 10.

(** [int(f)] of a finite float. *)
Definition int_of_float (f : float) : Z :=
  match Prim2SF f with
  | S754_finite s m e =>
      let v := if 0 <=? e then Z.pos m * 2 ^ e else Z.pos m / 2 ^ (- e) in
      if s then - v else v
  | _ => 0
  end.

(** [int(bars_back * 3.7)] as binary64 computes it, for a count from 0 to
    2^63 - 1. *)
Definition float_int_mul_3_7 (bars_back : Z) : Z :=
  int_of_float (PrimFloat.mul (PrimFloat.of_uint63 (Uint63.of_Z bars_back)) 3.7).

Definition adjust_bars_back (unit : string) (include_outside_hours : bool)
    (bars_back : Z) : Z :=
  if negb include_outside_hours && intraday unit then
    if String.eqb (upper unit) "MINUTE" then int_mul_3_7 bars_back
    else if String.eqb (upper unit) "HOUR" then bars_back * 4
    else bars_back
  else bars_back.

(** [df.iloc[k:]]. *)
Definition iloc_from {A : Type} (k : Z) (df : list A) : list A :=
  if k <? 0
  then drop (Z.to_nat (Z.max 0 (Z.of_nat (length df) + k))) df
  else drop (Z.to_nat k) df.

(** The [truncate_bars] step. *)
Definition truncate {A : Type} (truncate_bars : bool)
    (original_bars_back : Z) (bars_df : list A) : list A :=
  if truncate_bars then
    if Z.of_nat (length bars_df) >=? original_bars_back
    then iloc_from (- original_bars_back) bars_df
    else bars_df
  else bars_df.

(** What a call does besides returning: the requests it sends and the two
    log records of the retry logic. *)
Inductive event : Type :=
| Fetch (request : StockBarsRequest)
| LogInfo_retrying (rows original_bars_back : Z)
| LogWarning_could_not_get (original_bars_back rows : Z).

Inductive outcome : Type :=
| Returned (bars_df : list Bar)
| Raised (e : exn)
| OutOfFuel.

(** The computation of [get_alpaca_bars] before the fetch. *)
Record Plan : Type := {
  plan_timeframe : TimeFrame;
  original_bars_back : Z;
  plan_bars_back : Z;
  adjusted_bars_back : Z;
  plan_request : StockBarsRequest
}.

Section Upstream.

(** The collaborators: [ta.indicators.indicator_min_bars_back],
    [common_lib.mcp.is_realtime], and the data source, which answers the
    [n]-th request of a call with a table or with an error. *)
Variable indicator_min_bars_back : string -> Z.
Variable is_realtime : bool.
Variable get_stock_bars : nat -> StockBarsRequest -> result (list Bar).

Definition plan (symbol unit : string) (bars_back bar_size : Z)
    (indicators : string) (include_outside_hours : bool) : result Plan :=
  tf ← get_timeframe unit bar_size;
  original ← (if bars_back =? 0 then default_bars_back unit bar_size
              else Ok bars_back);
  let bars_back' :=
    match indicators with
    | EmptyString => original
    | _ => py_max (map indicator_min_bars_back (split "," indicators))
           + bars_back
    end in
  let adjusted := adjust_bars_back unit include_outside_hours bars_back' in
  start ← bars_back_to_datetime unit bar_size adjusted;
  let asof :=
    negb (is_realtime
          && match tf_unit tf with Minute | Hour => true | _ => false end) in
  mret {| plan_timeframe := tf;
          original_bars_back := original;
          plan_bars_back := bars_back';
          adjusted_bars_back := adjusted;
          plan_request := {| symbol_or_symbols := symbol;
                             timeframe := tf;
                             start := start;
                             asof_today := asof |} |}.

(** [get_alpaca_bars], up to the table it hands to the rounding and CSV
    steps (they keep every row and every timestamp).  The indicator columns
    that [add_indicators_to_bars_df] adds are not columns of [Bar].  An
    answer without rows comes as a table with a plain [RangeIndex], which
    has no [tz_convert]: the call raises there.  [fuel] bounds the depth of
    the recursion; [call] counts the requests already sent. *)
Fixpoint get_alpaca_bars (fuel call : nat) (symbol unit : string)
    (bars_back bar_size : Z) (indicators : string)
    (truncate_bars include_outside_hours : bool) : list event * outcome :=
  match fuel with
  | O => ([], OutOfFuel)
  | S fuel' =>
      match plan symbol unit bars_back bar_size indicators
                 include_outside_hours with
      | Raise e => ([], Raised e)
      | Ok p =>
          match get_stock_bars call (plan_request p) with
          | Raise e => ([Fetch (plan_request p)], Raised e)
          | Ok [] =>
              ([Fetch (plan_request p)],
               Raised (AttributeError_RangeIndex "tz_convert"))
          | Ok (bar :: bars) =>
              let raw := bar :: bars in
              let filtering := negb include_outside_hours && intraday unit in
              let bars_df :=
                if filtering
                then List.filter (fun b => regular_hours (timestamp b)) raw
                else raw in
              let rows := Z.of_nat (length bars_df) in
              if filtering && (rows <? original_bars_back p) then
                if adjusted_bars_back p <=? plan_bars_back p * 4 then
                  let '(events, out) :=
                    get_alpaca_bars fuel' (S call) symbol unit
                      (original_bars_back p * 10) bar_size indicators
                      truncate_bars include_outside_hours in
                  (Fetch (plan_request p)
                     :: LogInfo_retrying rows (original_bars_back p)
                     :: events, out)
                else
                  ([Fetch (plan_request p);
                    LogWarning_could_not_get (original_bars_back p) rows],
                   Returned (truncate truncate_bars (original_bars_back p)
                                      bars_df))
              else
                ([Fetch (plan_request p)],
                 Returned (truncate truncate_bars (original_bars_back p)
                                    bars_df))
          end
      end
  end.

End Upstream.

(** The requests a run sent. *)
Definition fetches (events : list event) : list StockBarsRequest :=
  omap (fun e => match e with Fetch r => Some r | _ => None end) events.

(** The regular session in the words of the specification: a weekday, and a
    time of day from 09:30:00 to 16:00:00, both included. *)
Definition in_regular_session (t : Timestamp) : Prop :=
  0 <= dayofweek t <= 4
  /\ 9 * 3600 + 30 * 60 <= hour t * 3600 + minute t * 60 + second t
     <= 16 * 3600.

(** A timestamp of a minute or hour bar: a time of day on a whole minute. *)
Definition bar_aligned (t : Timestamp) : Prop :=
  0 <= hour t < 24 /\ 0 <= minute t < 60 /\ second t = 0.

End MarketData.

(** ** Timeframes the data library accepts *)

Module TimeFrames.

Import MarketData.

(** What the constructor of [TimeFrame] lets through (its
    [validate_timeframe]): a positive amount, at most 59 minutes or 23
    hours, exactly 1 day or week, and 1, 2, 3, 6 or 12 months.  Any other
    pair makes the constructor raise. *)
Definition timeframe_accepted (tf : TimeFrame) : Prop :=
  0 < amount tf
  /\ match tf_unit tf with
     | Minute => amount tf <= 59
     | Hour => amount tf <= 23
     | Day | Week => amount tf = 1
     | Month => amount tf = 1 \/ amount tf = 2 \/ amount tf = 3
                \/ amount tf = 6 \/ amount tf = 12
     end.

End TimeFrames.

(** ** Windows the date library can reach *)

Module Windows.

Import MarketData.

(** The business days a window reaches back, rounded up: a business hour
    offset runs from 09:30 to 16:00, six and a half hours a day. *)
Definition window_days (w : WindowStart) : Z :=
  match interval w with
  | BusinessHour n => (2 * (n * steps w)) / 13 + 1
  | BDay n => n * steps w
  end.

(** A window of at most 20000 business days, some 77 years: the start of
    such a window, counted back from a current market time of this century,
    is a [Timestamp] that [pandas] represents (its earliest one is in 1677),
    so the subtraction in [bars_back_to_datetime] does not raise. *)
Definition window_fits (w : WindowStart) : Prop :=
  0 <= window_days w <= 20000.

End Windows.

(** ** The callers of [get_alpaca_bars] *)

Module BarTools.

Import MarketData.

(** How a caller ends: with its value, with an exception of
    [get_alpaca_bars] or [default_bars_back], with the [IndexError] of
    indexing an empty table, or with the recursion of [get_alpaca_bars]
    deeper than the fuel. *)
Inductive tool_outcome (A : Type) : Type :=
| ToolReturned (a : A)
| ToolRaised (e : exn)
| ToolIndexError
| ToolOutOfFuel.

Arguments ToolReturned {A} a.
Arguments ToolRaised {A} e.
Arguments ToolIndexError {A}.
Arguments ToolOutOfFuel {A}.

Section Upstream.

Variable indicator_min_bars_back : string -> Z.
Variable is_realtime : bool.
Variable get_stock_bars : nat -> StockBarsRequest -> result (list Bar).

(** [plot_alpaca_bars_with_indicators]: the rows handed to [plot_bars] and
    the rows of the returned CSV.  The table is read back from the CSV of
    [get_alpaca_bars], which keeps its rows; [bars_df.index[-1]] and
    [.index[0]] raise on an empty table; the picture itself and the title
    with the time span are the plotting library's. *)
Definition plot_alpaca_bars_with_indicators (fuel : nat)
    (symbol unit : string) (bars_back bar_size : Z) (indicators : string)
    (include_outside_hours : bool)
  : list event * tool_outcome (list Bar * list Bar) :=
  match default_bars_back unit bar_size with
  | Raise e => ([], ToolRaised e)
  | Ok default =>
      let plot_bar_count := Z.max bars_back default in
      match get_alpaca_bars indicator_min_bars_back is_realtime
              get_stock_bars fuel 0 symbol unit plot_bar_count bar_size
              indicators false include_outside_hours with
      | (events, Raised e) => (events, ToolRaised e)
      | (events, OutOfFuel) => (events, ToolOutOfFuel)
      | (events, Returned bars_df) =>
          let plotted := iloc_from (- plot_bar_count) bars_df in
          match bars_df, plotted with
          | [], _ | _, [] => (events, ToolIndexError)
          | _, _ =>
              let shown :=
                if bars_back =? 0 then plot_bar_count else bars_back in
              (events, ToolReturned (plotted, iloc_from (- shown) bars_df))
          end
      end
  end.

(** The tables [asyncio.gather] collects in [get_most_recent_bar], one call
    of [get_alpaca_bars] with [bars_back=1] per symbol.  An exception of any
    call ends the gathering (here the one of the first such symbol in the
    list); failing that, a call that never returns keeps it from ending. *)
Fixpoint gather_bars (fuel : nat) (symbol_list : list string) (bar_size : Z)
    (bar_unit : string) (include_outside_hours : bool)
  : tool_outcome (list (string * list Bar)) :=
  match symbol_list with
  | [] => ToolReturned []
  | symbol :: rest =>
      let later :=
        gather_bars fuel rest bar_size bar_unit include_outside_hours in
      match get_alpaca_bars indicator_min_bars_back is_realtime
              get_stock_bars fuel 0 symbol bar_unit 1 bar_size "" false
              include_outside_hours with
      | (_, Raised e) => ToolRaised e
      | (_, OutOfFuel) =>
          match later with
          | ToolRaised e => ToolRaised e
          | _ => ToolOutOfFuel
          end
      | (_, Returned df) =>
          match later with
          | ToolReturned dfs => ToolReturned ((symbol, df) :: dfs)
          | other => other
          end
      end
  end.

(** The loop of [get_most_recent_bar] over the gathered tables:
    [bars[symbol] = parsed.iloc[-1]]. *)
Fixpoint last_bars (dfs : list (string * list Bar)) (bars : gmap string Bar)
  : tool_outcome (gmap string Bar) :=
  match dfs with
  | [] => ToolReturned bars
  | (symbol, df) :: rest =>
      match last df with
      | None => ToolIndexError
      | Some ohlcv => last_bars rest (<[symbol := ohlcv]> bars)
      end
  end.

(** [get_most_recent_bar], up to the JSON text of the dictionary. *)
Definition get_most_recent_bar (fuel : nat) (symbol_list : list string)
    (bar_size : Z) (bar_unit : string) (include_outside_hours : bool)
  : tool_outcome (gmap string Bar) :=
  match gather_bars fuel symbol_list bar_size bar_unit
          include_outside_hours with
  | ToolReturned dfs => last_bars dfs ∅
  | ToolRaised e => ToolRaised e
  | ToolIndexError => ToolIndexError
  | ToolOutOfFuel => ToolOutOfFuel
  end.

End Upstream.

End BarTools.

(** ** Sequences of client calls *)

Module Calls.

Import Simulation.

(** A writing call of [SimulationTradingClient] with its arguments; the key
    [uuid4] and the clock readings are what the call draws while it runs. *)
Inductive client_call : Type :=
| Submit (uuid4 : UUID) (db_now : datetime) (order_data : OrderRequest)
| Cancel (utcnow : datetime) (order_id : UUID)
| Replace (uuid4 : UUID) (utcnow db_now : datetime) (order_id : UUID)
    (new_order_data : ReplaceOrderRequest)
| Close (utcnow : datetime) (symbol_or_asset_id : string)
    (close_options : option ClosePositionRequest).

(** The table a call leaves. *)
Definition perform (c : client_call) (db : OrderStore) : OrderStore :=
  match c with
  | Submit uuid4 db_now order_data =>
      table_after db (submit_order uuid4 db_now order_data db)
  | Cancel utcnow order_id =>
      table_after db (cancel_order_by_id utcnow order_id db)
  | Replace uuid4 utcnow db_now order_id new_order_data =>
      table_after db
        (replace_order_by_id uuid4 utcnow db_now order_id new_order_data db)
  | Close utcnow symbol_or_asset_id close_options =>
      table_after db
        (close_position utcnow symbol_or_asset_id close_options db)
  end.

(** The table after the calls of a list, first to last. *)
Definition perform_all (cs : list client_call) (db : OrderStore) : OrderStore :=
  fold_left (fun d c => perform c d) cs db.

(** The columns of a row that carry the order's terms: every column but
    [status] and [updated_timestamp]. *)
Definition terms (o : Order) :=
  (instrument o, quantity o, side o, entry_price o, take_profit_price o,
   stop_loss_price o, order_type o, order_class o, time_in_force o,
   created_timestamp o).

End Calls.

(** ** The order-filled resource in simulation mode *)

Module Resources.

Import Simulation.

Local Open Scope string_scope.

(** What [has_order_filled] can raise: an exception of the trading client,
    or the [AttributeError] of reading a field the response model does not
    declare. *)
Inductive raised : Type :=
| ClientRaised (e : exn)
| AttributeError (class attribute : string).

(** The value of an attribute of a response. *)
Inductive attribute_value : Type :=
| StatusValue (s : OrderStatus)
| IdValue (u : UUID).

(** [order.<attribute>] on a [FetchOrderResponse], whose fields are
    [status] and [id]. *)
Definition getattr_FetchOrderResponse (order : FetchOrderResponse)
    (attribute : string) : raised + attribute_value :=
  if String.eqb attribute "status" then inr (StatusValue (fetch_status order))
  else if String.eqb attribute "id" then inr (IdValue (fetch_id order))
  else inl (AttributeError "FetchOrderResponse" attribute).

Definition attribute_value_eqb (a b : attribute_value) : bool :=
  match a, b with
  | StatusValue s, StatusValue t => bool_decide (s = t)
  | IdValue u, IdValue v => N.eqb u v
  | _, _ => false
  end.

(** [has_order_filled] with [trading_client] the [SimulationTradingClient]
    (the branch [settings.simulation] of [resources.py]). *)
Definition has_order_filled (order_id : UUID) (db : OrderStore)
  : raised + bool :=
  match get_order_by_id order_id db with
  | Raise e => inl (ClientRaised e)
  | Ok order =>
      match getattr_FetchOrderResponse order "filled_qty" with
      | inl e => inl e
      | inr filled_qty =>
          match getattr_FetchOrderResponse order "qty" with
          | inl e => inl e
          | inr qty => inr (attribute_value_eqb filled_qty qty)
          end
      end
  end.

End Resources.

(** ** The technical rating of the research service *)

Module Research.

Local Open Scope string_scope.

(** [format_technical_rating], the helper of [get_symbol_summaries]. *)
Definition format_technical_rating (rating : float) : string :=
  if (0.5 <=? rating)%float then "Strong Buy"
  else if (0.1 <=? rating)%float then "Buy"
  else if (-0.1 <=? rating)%float then "Neutral"
  else if (-0.5 <=? rating)%float then "Sell"
  else "Strong Sell".

(** The labels from the most bearish to the most bullish. *)
Definition bullishness (label : string) : nat :=
  if String.eqb label "Strong Buy" then 4
  else if String.eqb label "Buy" then 3
  else if String.eqb label "Neutral" then 2
  else if String.eqb label "Sell" then 1
  else 0.

End Research.

(** ** Sample data *)

Module Samples.

Import Simulation MarketData.

Local Open Scope string_scope.

(** A market order and a limit order for ten shares. *)
Definition market_order : OrderRequest :=
  {| symbol := "AAPL";
     qty := Some 10%float;
     req_side := Some BUY;
     type := MARKET;
     req_time_in_force := DAY;
     limit_price := None;
     req_order_class := None;
     take_profit := None;
     stop_loss := None |}.

Definition limit_order : OrderRequest :=
  {| symbol := "AAPL";
     qty := Some 10%float;
     req_side := Some BUY;
     type := LIMIT;
     req_time_in_force := DAY;
     limit_price := Some 150.5%float;
     req_order_class := None;
     take_profit := None;
     stop_loss := None |}.

(** The table after the limit order was submitted under key 1. *)
Definition one_order : gmap N Order :=
  table_after ∅ (submit_order 1%N 1000 limit_order ∅).

(** The row under key 1. *)
Definition first_row : Order := new_order_row 1000 limit_order.

(** The table after that order was cancelled. *)
Definition one_canceled : gmap N Order :=
  table_after one_order (cancel_order_by_id 1500 1%N one_order).

Definition raise_limit : ReplaceOrderRequest :=
  {| new_qty := None;
     new_time_in_force := None;
     new_limit_price := Some 155%float;
     new_stop_price := None |}.

Definition full_close : ClosePositionRequest :=
  {| close_qty := None; percentage := Some "100" |}.

Definition half_close : ClosePositionRequest :=
  {| close_qty := None; percentage := Some "50" |}.

(** No indicator needs history. *)
Definition no_warmup (indicator : string) : Z := 0.

Definition bar_at (day hh mm : Z) : Bar :=
  {| timestamp := {| ordinal := day; hour := hh; minute := mm; second := 0 |};
     open := 100%float;
     high := 101%float;
     low := 99%float;
     close := 100.5%float;
     volume := 1200 |}.

(** Monday 2025-03-03 and Saturday 2025-03-08 as ordinals. *)
Definition monday : Z := 739313.

Definition saturday : Z := 739318.

(** A source that answers every request with the same six bars, around the
    session's two ends: three of them are in the regular session. *)
Definition session_edges (n : nat) (request : StockBarsRequest)
  : result (list Bar) :=
  Ok [bar_at monday 9 29; bar_at monday 9 30; bar_at monday 12 0;
      bar_at monday 16 0; bar_at monday 16 1; bar_at saturday 10 0].

Import Calls.

(** A limit order with a take-profit and a stop-loss leg. *)
Definition bracket_order : OrderRequest :=
  {| symbol := "MSFT";
     qty := Some 5%float;
     req_side := Some SELL;
     type := LIMIT;
     req_time_in_force := GTC;
     limit_price := Some 400%float;
     req_order_class := Some BRACKET;
     take_profit := Some {| tp_limit_price := 380%float |};
     stop_loss := Some {| sl_stop_price := 410%float |} |}.

(** The table with the bracket order under key 5. *)
Definition bracket_table : gmap N Order :=
  table_after ∅ (submit_order 5%N 1000 bracket_order ∅).

(** A replacement that sets the limit price to zero. *)
Definition zero_limit : ReplaceOrderRequest :=
  {| new_qty := None;
     new_time_in_force := None;
     new_limit_price := Some 0%float;
     new_stop_price := None |}.

(** A plain limit order on another instrument. *)
Definition msft_order : OrderRequest :=
  {| symbol := "MSFT";
     qty := Some 5%float;
     req_side := Some SELL;
     type := LIMIT;
     req_time_in_force := GTC;
     limit_price := Some 400%float;
     req_order_class := None;
     take_profit := None;
     stop_loss := None |}.

(** A table with four orders: on AAPL a NEW one under key 1, a CANCELED one
    under key 3 and a FILLED one under key 4; on MSFT a NEW one under
    key 5. *)
Definition mixed_table : gmap N Order :=
  perform_all
    [Submit 4%N 900 limit_order;
     Close 950 "AAPL" (Some full_close);
     Submit 1%N 1000 limit_order;
     Submit 3%N 1010 limit_order;
     Cancel 1500 3%N;
     Submit 5%N 1100 msft_order] ∅.

(** A limit order of class SIMPLE that carries a take-profit and a
    stop-loss price, and the table with it under key 5. *)
Definition limit_with_legs : OrderRequest :=
  {| symbol := "MSFT";
     qty := Some 5%float;
     req_side := Some SELL;
     type := LIMIT;
     req_time_in_force := GTC;
     limit_price := Some 400%float;
     req_order_class := None;
     take_profit := Some {| tp_limit_price := 380%float |};
     stop_loss := Some {| sl_stop_price := 410%float |} |}.

Definition legs_table : gmap N Order :=
  table_after ∅ (submit_order 5%N 1000 limit_with_legs ∅).

(** A session of the client: two orders, a replacement, a full close of
    one instrument and a cancellation. *)
Definition session : list client_call :=
  [Submit 1%N 1000 limit_order;
   Submit 5%N 1100 bracket_order;
   Replace 2%N 2000 2001 1%N raise_limit;
   Close 3000 "AAPL" (Some full_close);
   Cancel 3500 5%N].

(** Five daily bars, Monday to Friday. *)
Definition week_of_days (n : nat) (request : StockBarsRequest)
  : result (list Bar) :=
  Ok (map (fun d => bar_at (monday + d) 0 0) [0; 1; 2; 3; 4]).

(** Twelve bars of the Monday session, one per half hour from 10:00. *)
Definition half_hours : list Bar :=
  map (fun k => bar_at monday (10 + k / 2) (30 * (k mod 2)))
    [0; 1; 2; 3; 4; 5; 6; 7; 8; 9; 10; 11].

(** A source whose first answer has only a weekend bar and whose later
    answers have the twelve session bars. *)
Definition thin_then_full (n : nat) (request : StockBarsRequest)
  : result (list Bar) :=
  match n with
  | O => Ok [bar_at saturday 10 0]
  | S _ => Ok half_hours
  end.

End Samples.

(** * Properties of the order simulation *)

Section SimulationProperties.

Import Simulation Calls.

Implicit Types (db : gmap N Order) (order : Order) (order_id new_id : N).
Implicit Types (utcnow db_now : Z) (order_data : OrderRequest).
Implicit Types (new_order_data : ReplaceOrderRequest).

(** ** Reading and the row helpers *)

Lemma get_order_found db order_id order :
  db !! order_id = Some order -> _get_order_by_id order_id db = Ok order.
Proof. intros H. unfold _get_order_by_id. now rewrite H. Qed.

Lemma get_order_missing db order_id :
  db !! order_id = None ->
  _get_order_by_id order_id db = Raise (ValueError_order_not_found order_id).
Proof. intros H. unfold _get_order_by_id. now rewrite H. Qed.

Lemma with_status_status st now order : status (with_status st now order) = st.
Proof. reflexivity. Qed.

Lemma with_status_created st now order :
  created_by_client order -> created_by_client (with_status st now order).
Proof. intros H. exact H. Qed.

(** ** Inserting *)

Lemma flush_insert_ok (uuid4 : N) row db :
  is_Some (side row) -> is_Some (entry_price row) -> db !! uuid4 = None ->
  flush_insert uuid4 row db = Ok (<[uuid4 := row]> db).
Proof.
  intros [s Hs] [p Hp] Hfresh. unfold flush_insert.
  now rewrite Hs, Hp, Hfresh.
Qed.

Lemma flush_insert_inv (uuid4 : N) row db db' :
  flush_insert uuid4 row db = Ok db' ->
  is_Some (side row) /\ is_Some (entry_price row)
  /\ db !! uuid4 = None /\ db' = <[uuid4 := row]> db.
Proof.
  unfold flush_insert.
  destruct (side row) as [s|]; [|discriminate].
  destruct (entry_price row) as [p|]; [|discriminate].
  destruct (db !! uuid4) eqn:Hk; [discriminate|].
  intros [= <-]. eauto.
Qed.

Lemma flush_insert_null_entry_price (uuid4 : N) row db :
  entry_price row = None ->
  exists column, flush_insert uuid4 row db = Raise (IntegrityError_not_null column).
Proof.
  intros Hp. unfold flush_insert. rewrite Hp.
  destruct (side row); eauto.
Qed.

(** The entry price is the limit price of a limit order, and nothing else. *)
Lemma create_entry_price_limit order_data p :
  type order_data = LIMIT -> limit_price order_data = Some p ->
  truthy p = true -> create_entry_price order_data = Some p.
Proof.
  intros Ht Hp Hz. unfold create_entry_price.
  rewrite bool_decide_eq_true_2 by exact Ht.
  rewrite Hp. simpl. now rewrite Hz.
Qed.

Lemma create_entry_price_other order_data :
  type order_data <> LIMIT -> create_entry_price order_data = None.
Proof.
  intros Ht. unfold create_entry_price.
  now rewrite bool_decide_eq_false_2 by exact Ht.
Qed.

Lemma create_entry_price_Some order_data p :
  create_entry_price order_data = Some p ->
  type order_data = LIMIT /\ limit_price order_data = Some p /\ truthy p = true.
Proof.
  unfold create_entry_price.
  case_bool_decide as Ht; simpl; [|discriminate].
  destruct (limit_price order_data) as [q|] eqn:Hq; simpl; [|discriminate].
  destruct (truthy q) eqn:Hz; [|discriminate].
  intros [= <-]. auto.
Qed.

(** A row that passed [flush_insert] is one [created_by_client]. *)
Lemma create_order_inv (uuid4 : N) db_now order_data db new_id new_order db' :
  _create_order uuid4 db_now order_data db = Ok (new_id, new_order, db') ->
  new_id = uuid4
  /\ new_order = new_order_row db_now order_data
  /\ db !! uuid4 = None
  /\ db' = <[uuid4 := new_order]> db
  /\ created_by_client new_order.
Proof.
  unfold _create_order. simpl.
  destruct (flush_insert uuid4 (new_order_row db_now order_data) db)
    as [db1|e] eqn:Hf; simpl; [|discriminate].
  intros [= <- <- <-].
  apply flush_insert_inv in Hf as (Hs & [p Hp] & Hk & ->).
  simpl in Hp.
  destruct (create_entry_price_Some _ _ Hp) as (Ht & _ & Hz).
  do 4 (split; [auto|]).
  split; [exact Hs|]. split; [exact Ht|]. exists p. auto.
Qed.

(** ** Submitting *)


Lemma submit_order_inv (uuid4 : N) db_now order_data db resp db' :
  submit_order uuid4 db_now order_data db = Ok (resp, db') ->
  db !! uuid4 = None
  /\ db' = <[uuid4 := new_order_row db_now order_data]> db
  /\ created_by_client (new_order_row db_now order_data).
Proof.
  unfold submit_order.
  destruct (_create_order uuid4 db_now order_data db)
    as [[[k o] d]|e] eqn:Hc; simpl; [|discriminate].
  intros [= <- <-].
  apply create_order_inv in Hc as (-> & -> & Hk & -> & Hcr). auto.
Qed.

(** C2 (the code departs from the claim): for an order whose type is not
    LIMIT, [_create_order] computes a null entry price, and the [orders]
    table, whose [entry_price] column is [nullable=False], refuses the row:
    [submit_order] raises an integrity error and nothing is persisted. *)
Theorem submit_order_non_limit_rejected (uuid4 : N) db_now order_data db :
  type order_data <> LIMIT ->
  entry_price (new_order_row db_now order_data) = None
  /\ (exists column,
        submit_order uuid4 db_now order_data db
        = Raise (IntegrityError_not_null column))
  /\ table_after db (submit_order uuid4 db_now order_data db) = db.
Proof.
  intros Ht.
  assert (He : entry_price (new_order_row db_now order_data) = None)
    by exact (create_entry_price_other _ Ht).
  destruct (flush_insert_null_entry_price uuid4 _ db He) as [column Hf].
  assert (Hs : submit_order uuid4 db_now order_data db
               = Raise (IntegrityError_not_null column)).
  { unfold submit_order, _create_order. now rewrite Hf. }
  split; [exact He|]. split; [eauto|]. now rewrite Hs.
Qed.

(** ** Cancelling *)

Lemma cancel_order_by_id_ok utcnow order_id db order :
  db !! order_id = Some order ->
  cancel_order_by_id utcnow order_id db
  = Ok ({| cancel_status := CANCELED; cancel_id := order_id |},
        <[order_id := with_status CANCELED utcnow order]> db).
Proof.
  intros H. unfold cancel_order_by_id.
  now rewrite (get_order_found _ _ _ H).
Qed.

Lemma cancel_order_by_id_missing utcnow order_id db :
  db !! order_id = None ->
  cancel_order_by_id utcnow order_id db
  = Raise (ValueError_order_not_found order_id).
Proof.
  intros H. unfold cancel_order_by_id.
  now rewrite (get_order_missing _ _ H).
Qed.

(** C9: cancelling an order that is already CANCELED succeeds: the call
    returns the CANCELED response, the row keeps the status CANCELED and
    gets the new [updated_timestamp], and no other row changes. *)
Theorem cancel_canceled_order_succeeds utcnow order_id db order :
  db !! order_id = Some order -> status order = CANCELED ->
  exists db',
    cancel_order_by_id utcnow order_id db
    = Ok ({| cancel_status := CANCELED; cancel_id := order_id |}, db')
    /\ db' !! order_id = Some (with_status CANCELED utcnow order)
    /\ updated_timestamp (with_status CANCELED utcnow order) = utcnow
    /\ (forall k, k <> order_id -> db' !! k = db !! k)
    /\ size db' = size db.
Proof.
  intros Hk _.
  exists (<[order_id := with_status CANCELED utcnow order]> db).
  split; [exact (cancel_order_by_id_ok _ _ _ _ Hk)|].
  split; [apply lookup_insert_eq|].
  split; [reflexivity|].
  split.
  - intros k Hne. now apply lookup_insert_ne.
  - apply map_size_insert_Some. eauto.
Qed.

(** ** Replacing *)

Lemma replace_canceled_raises (uuid4 : N) utcnow db_now order_id
    new_order_data db order :
  db !! order_id = Some order -> status order = CANCELED ->
  replace_order_by_id uuid4 utcnow db_now order_id new_order_data db
  = Raise (ValueError_already_canceled order_id).
Proof.
  intros Hk Hst. unfold replace_order_by_id.
  rewrite (get_order_found _ _ _ Hk). simpl.
  now rewrite bool_decide_eq_true_2 by exact Hst.
Qed.

(** C4: replacing an order whose status is CANCELED raises the
    already-canceled error and leaves the table as it was (no row added,
    the stored order untouched); so does a replace that follows
    [cancel_order_by_id] on any stored order. *)
Theorem replace_canceled_order_fails (uuid4 : N) utcnow db_now order_id
    new_order_data db order :
  db !! order_id = Some order ->
  (status order = CANCELED ->
   replace_order_by_id uuid4 utcnow db_now order_id new_order_data db
   = Raise (ValueError_already_canceled order_id)
   /\ table_after db
        (replace_order_by_id uuid4 utcnow db_now order_id new_order_data db)
      = db)
  /\ (forall utcnow0,
        let db1 :=
          table_after db (cancel_order_by_id utcnow0 order_id db) in
        replace_order_by_id uuid4 utcnow db_now order_id new_order_data db1
        = Raise (ValueError_already_canceled order_id)
        /\ table_after db1
             (replace_order_by_id uuid4 utcnow db_now order_id
                new_order_data db1)
           = db1).
Proof.
  intros Hk. split.
  - intros Hst.
    pose proof (replace_canceled_raises uuid4 utcnow db_now _ new_order_data
                  _ _ Hk Hst) as Hr.
    split; [exact Hr|]. now rewrite Hr.
  - intros utcnow0 db1.
    assert (H1 : db1 !! order_id = Some (with_status CANCELED utcnow0 order)).
    { subst db1. rewrite (cancel_order_by_id_ok _ _ _ _ Hk). simpl.
      apply lookup_insert_eq. }
    pose proof (replace_canceled_raises uuid4 utcnow db_now _ new_order_data
                  _ _ H1 eq_refl) as Hr.
    split; [exact Hr|]. now rewrite Hr.
Qed.

(** The request built from a client-made row and a valid replacement has a
    true limit price, so the new row has an entry price. *)
Lemma prepared_entry_price utcnow order new_order_data :
  created_by_client order -> valid_replace new_order_data ->
  exists p,
    create_entry_price
      (_prepare_new_order_request (with_status CANCELED utcnow order)
         new_order_data) = Some p
    /\ truthy p = true.
Proof.
  intros (_ & Ht & p & Hp & Hz) Hv.
  destruct (new_limit_price new_order_data) as [q|] eqn:Hq.
  - exists q. split; [|exact (Hv q Hq)].
    apply create_entry_price_limit; simpl; auto.
    now rewrite Hq.
  - exists p. split; [|exact Hz].
    apply create_entry_price_limit; simpl; auto.
    now rewrite Hq.
Qed.

Lemma replace_order_by_id_ok (uuid4 : N) utcnow db_now order_id
    new_order_data db order :
  db !! order_id = Some order -> status order <> CANCELED ->
  created_by_client order -> valid_replace new_order_data ->
  db !! uuid4 = None ->
  exists resp new_order,
    replace_order_by_id uuid4 utcnow db_now order_id new_order_data db
    = Ok (resp, <[uuid4 := new_order]>
                  (<[order_id := with_status CANCELED utcnow order]> db))
    /\ modify_id resp = uuid4
    /\ modify_status resp = NEW
    /\ status new_order = NEW
    /\ created_by_client new_order
    /\ order_class new_order = order_class order.
Proof.
  intros Hk Hst Hcr Hv Hfresh.
  set (canceled := with_status CANCELED utcnow order).
  set (new_order :=
         new_order_row db_now (_prepare_new_order_request canceled new_order_data)).
  destruct (prepared_entry_price utcnow order new_order_data Hcr Hv)
    as (p & Hp & Hz).
  assert (Hne : uuid4 <> order_id) by congruence.
  assert (Hside : is_Some (side new_order)) by (destruct Hcr as [Hs _]; exact Hs).
  assert (Hentry : entry_price new_order = Some p) by exact Hp.
  assert (Hnew : created_by_client new_order).
  { split; [exact Hside|]. split; [reflexivity|]. exists p. auto. }
  eexists _, new_order. split.
  - unfold replace_order_by_id.
    rewrite (get_order_found _ _ _ Hk). simpl.
    rewrite bool_decide_eq_false_2 by exact Hst.
    unfold _create_order. fold canceled. fold new_order.
    rewrite flush_insert_ok; [reflexivity|exact Hside|rewrite Hentry; eauto|].
    rewrite lookup_insert_ne by congruence. exact Hfresh.
  - repeat (split; [reflexivity|]). split; [exact Hnew|reflexivity].
Qed.

Lemma replace_order_by_id_inv (uuid4 : N) utcnow db_now order_id
    new_order_data db resp db' :
  replace_order_by_id uuid4 utcnow db_now order_id new_order_data db
  = Ok (resp, db') ->
  exists order new_order,
    db !! order_id = Some order
    /\ status order <> CANCELED
    /\ uuid4 <> order_id
    /\ db !! uuid4 = None
    /\ db' = <[uuid4 := new_order]>
               (<[order_id := with_status CANCELED utcnow order]> db)
    /\ created_by_client new_order
    /\ modify_id resp = uuid4.
Proof.
  unfold replace_order_by_id, _get_order_by_id.
  destruct (db !! order_id) as [order|] eqn:Hk; simpl; [|discriminate].
  case_bool_decide as Hst; [discriminate|].
  destruct (_create_order _ _ _ _) as [[[k o] d]|e] eqn:Hc; simpl;
    [|discriminate].
  intros [= <- <-].
  apply create_order_inv in Hc as (-> & -> & Hfresh & -> & Hcr).
  assert (Hne : uuid4 <> order_id).
  { intros ->. rewrite lookup_insert_eq in Hfresh. discriminate. }
  rewrite lookup_insert_ne in Hfresh by congruence.
  eexists order, _. repeat (split; [eauto|]). reflexivity.
Qed.

(** ** Closing a position *)

Lemma fill_if_open_match utcnow (symbol_or_asset_id : string) order :
  status order = NEW -> instrument order = symbol_or_asset_id ->
  fill_if_open utcnow symbol_or_asset_id order = with_status FILLED utcnow order.
Proof.
  intros Hst Hi. unfold fill_if_open.
  now rewrite !bool_decide_eq_true_2 by assumption.
Qed.

Lemma fill_if_open_other utcnow (symbol_or_asset_id : string) order :
  status order <> NEW \/ instrument order <> symbol_or_asset_id ->
  fill_if_open utcnow symbol_or_asset_id order = order.
Proof.
  intros H. unfold fill_if_open.
  destruct H as [H|H].
  - now rewrite (bool_decide_eq_false_2 _ H).
  - rewrite (bool_decide_eq_false_2 (instrument order = _) H).
    now rewrite andb_false_r.
Qed.

Lemma fill_if_open_created utcnow (symbol_or_asset_id : string) order :
  created_by_client order ->
  created_by_client (fill_if_open utcnow symbol_or_asset_id order).
Proof.
  intros H. unfold fill_if_open.
  destruct (_ && _); [apply with_status_created|]; exact H.
Qed.

Lemma close_position_full_ok utcnow (symbol_or_asset_id : string) options db :
  percentage options = Some "100"%string ->
  close_position utcnow symbol_or_asset_id (Some options) db
  = Ok (tt, fill_if_open utcnow symbol_or_asset_id <$> db).
Proof. intros H. unfold close_position. now rewrite H. Qed.

Lemma close_position_inv utcnow (symbol_or_asset_id : string) close_options
    db u db' :
  close_position utcnow symbol_or_asset_id close_options db = Ok (u, db') ->
  db' = fill_if_open utcnow symbol_or_asset_id <$> db.
Proof.
  unfold close_position.
  destruct close_options as [options|]; [|discriminate].
  destruct (_ || _); [discriminate|].
  now intros [= <- <-].
Qed.

(** C5: [close_position] with percentage "100" succeeds; every stored order
    that is NEW on the given instrument is stored afterwards with status
    FILLED, with [updated_timestamp] the clock reading of the call, and with
    every other column as it was; every order with another status (CANCELED
    and FILLED among them) or on another instrument stays as it is in all
    columns, and no row is added. *)
Theorem close_position_full utcnow (symbol_or_asset_id : string) options db :
  percentage options = Some "100"%string ->
  exists db',
    close_position utcnow symbol_or_asset_id (Some options) db = Ok (tt, db')
    /\ (forall order_id order,
          db !! order_id = Some order ->
          status order = NEW -> instrument order = symbol_or_asset_id ->
          exists filled,
            db' !! order_id = Some filled
            /\ status filled = FILLED
            /\ updated_timestamp filled = utcnow
            /\ terms filled = terms order)
    /\ (forall order_id order,
          db !! order_id = Some order ->
          status order <> NEW \/ instrument order <> symbol_or_asset_id ->
          db' !! order_id = Some order)
    /\ (forall order_id, db !! order_id = None -> db' !! order_id = None).
Proof.
  intros Hp.
  exists (fill_if_open utcnow symbol_or_asset_id <$> db).
  split; [exact (close_position_full_ok _ _ _ _ Hp)|].
  split; [|split].
  - intros k o Hk Hst Hi. exists (fill_if_open utcnow symbol_or_asset_id o).
    split; [now rewrite lookup_fmap, Hk|].
    rewrite fill_if_open_match by assumption. auto.
  - intros k o Hk Hno. rewrite lookup_fmap, Hk. simpl.
    now rewrite fill_if_open_other.
  - intros k Hk. now rewrite lookup_fmap, Hk.
Qed.

(** C6: [close_position] with options whose percentage is anything but the
    string "100" (another string, the empty string, or no percentage)
    raises, whatever the table holds, and the table stays as it was. *)
Theorem close_position_partial_rejected utcnow (symbol_or_asset_id : string)
    options db :
  percentage options <> Some "100"%string ->
  close_position utcnow symbol_or_asset_id (Some options) db
  = Raise Exception_only_full_liquidation
  /\ table_after db
       (close_position utcnow symbol_or_asset_id (Some options) db) = db.
Proof.
  intros Hp.
  assert (Hr : close_position utcnow symbol_or_asset_id (Some options) db
               = Raise Exception_only_full_liquidation).
  { unfold close_position.
    rewrite (bool_decide_eq_false_2 _ Hp). simpl.
    now rewrite orb_true_r. }
  split; [exact Hr|]. now rewrite Hr.
Qed.

(** C10: [close_position] called with [close_options = None], the declared
    default, raises the attribute error of [None.percentage]; it is not the
    domain error of a partial close, and the table stays as it was. *)
Theorem close_position_without_options utcnow (symbol_or_asset_id : string) db :
  close_position utcnow symbol_or_asset_id None db
  = Raise (AttributeError_NoneType "percentage")
  /\ close_position utcnow symbol_or_asset_id None db
     <> Raise Exception_only_full_liquidation
  /\ table_after db (close_position utcnow symbol_or_asset_id None db) = db.
Proof.
  split; [reflexivity|]. split; [|reflexivity].
  simpl. discriminate.
Qed.

(** ** The rows of a reachable table *)

Lemma reachable_created_by_client db :
  reachable db -> map_Forall (fun _ o => created_by_client o) db.
Proof.
  induction 1 as [|uuid4 db_now order_data db _ IH
                  |utcnow order_id db _ IH
                  |uuid4 utcnow db_now order_id new_order_data db _ IH
                  |utcnow sym close_options db _ IH].
  - apply map_Forall_empty.
  - destruct (submit_order uuid4 db_now order_data db) as [[resp db']|e] eqn:Hs;
      simpl; [|exact IH].
    apply submit_order_inv in Hs as (_ & -> & Hcr).
    now apply map_Forall_insert_2.
  - unfold cancel_order_by_id, _get_order_by_id.
    destruct (db !! order_id) as [order|] eqn:Hk; simpl; [|exact IH].
    apply map_Forall_insert_2; [|exact IH].
    apply with_status_created. exact (IH _ _ Hk).
  - destruct (replace_order_by_id _ _ _ _ _ _) as [[resp db']|e] eqn:Hr;
      simpl; [|exact IH].
    apply replace_order_by_id_inv in Hr
      as (order & new_order & Hk & _ & _ & _ & -> & Hcr & _).
    apply map_Forall_insert_2; [exact Hcr|].
    apply map_Forall_insert_2; [|exact IH].
    apply with_status_created. exact (IH _ _ Hk).
  - destruct (close_position _ _ _ _) as [[u db']|e] eqn:Hc; simpl; [|exact IH].
    apply close_position_inv in Hc as ->.
    intros k o. rewrite lookup_fmap.
    destruct (db !! k) as [o0|] eqn:Hk; simpl; [|discriminate].
    intros [= <-]. apply fill_if_open_created. exact (IH _ _ Hk).
Qed.

(** One replacement, on a row the client made. *)
Lemma replace_order_by_id_step (uuid4 : N) utcnow db_now order_id
    new_order_data db order :
  db !! order_id = Some order -> status order <> CANCELED ->
  created_by_client order -> valid_replace new_order_data ->
  db !! uuid4 = None ->
  exists resp new_order db',
    replace_order_by_id uuid4 utcnow db_now order_id new_order_data db
    = Ok (resp, db')
    /\ modify_id resp = uuid4
    /\ uuid4 <> order_id
    /\ db' !! uuid4 = Some new_order
    /\ status new_order = NEW
    /\ order_class new_order = order_class order
    /\ created_by_client new_order
    /\ (exists canceled,
          db' !! order_id = Some canceled
          /\ status canceled = CANCELED
          /\ updated_timestamp canceled = utcnow
          /\ terms canceled = terms order)
    /\ (forall k, k <> order_id -> k <> uuid4 -> db' !! k = db !! k)
    /\ size db' = S (size db).
Proof.
  intros Hk Hst Hcr Hv Hfresh.
  destruct (replace_order_by_id_ok uuid4 utcnow db_now order_id new_order_data
              db order Hk Hst Hcr Hv Hfresh)
    as (resp & new_order & Hr & Hid & _ & Hnew & Hcr' & Hclass).
  assert (Hne : uuid4 <> order_id) by congruence.
  eexists resp, new_order, _. split; [exact Hr|].
  split; [exact Hid|]. split; [exact Hne|].
  split; [apply lookup_insert_eq|].
  split; [exact Hnew|]. split; [exact Hclass|]. split; [exact Hcr'|].
  split; [|split].
  - exists (with_status CANCELED utcnow order).
    split; [|auto].
    rewrite lookup_insert_ne by exact Hne. apply lookup_insert_eq.
  - intros k Hk1 Hk2.
    rewrite lookup_insert_ne by congruence.
    now rewrite lookup_insert_ne by congruence.
  - rewrite map_size_insert_None.
    + f_equal. apply map_size_insert_Some. eauto.
    + rewrite lookup_insert_ne by congruence. exact Hfresh.
Qed.


End SimulationProperties.

(** * Properties of the bar fetcher *)

Section BarProperties.

Import MarketData TimeFrames Windows.

Local Open Scope string_scope.
Local Open Scope Z_scope.

(** ** Timeframes *)

(** The constructor lets through exactly the accepted timeframes. *)
Lemma TimeFrame_init_inv (n : Z) (unit : TimeFrameUnit) (tf : TimeFrame) :
  TimeFrame_init n unit = Ok tf ->
  tf = {| amount := n; tf_unit := unit |} /\ timeframe_accepted tf.
Proof.
  unfold TimeFrame_init, validate_timeframe.
  destruct (Z.ltb_spec 0 n) as [Hn|]; cbn [andb]; [|discriminate].
  destruct unit; unfold timeframe_accepted.
  - destruct (Z.leb_spec n 59); [|discriminate].
    intros [= <-]. simpl. auto.
  - destruct (Z.leb_spec n 23); [|discriminate].
    intros [= <-]. simpl. auto.
  - destruct (Z.eqb_spec n 1); [|discriminate].
    intros [= <-]. simpl. auto.
  - destruct (Z.eqb_spec n 1); [|discriminate].
    intros [= <-]. simpl. auto.
  - destruct (Z.eqb_spec n 1), (Z.eqb_spec n 2), (Z.eqb_spec n 3),
      (Z.eqb_spec n 6), (Z.eqb_spec n 12); cbn [orb]; try discriminate;
      intros [= <-]; simpl; split; auto; lia.
Qed.

Lemma TimeFrame_init_accepted (n : Z) (unit : TimeFrameUnit) :
  timeframe_accepted {| amount := n; tf_unit := unit |} ->
  TimeFrame_init n unit = Ok {| amount := n; tf_unit := unit |}.
Proof.
  unfold timeframe_accepted, TimeFrame_init, validate_timeframe. simpl.
  intros [Hn Hu].
  destruct (Z.ltb_spec 0 n); [|lia]. cbn [andb].
  destruct unit.
  - destruct (Z.leb_spec n 59); [reflexivity|lia].
  - destruct (Z.leb_spec n 23); [reflexivity|lia].
  - destruct (Z.eqb_spec n 1); [reflexivity|lia].
  - destruct (Z.eqb_spec n 1); [reflexivity|lia].
  - destruct (Z.eqb_spec n 1), (Z.eqb_spec n 2), (Z.eqb_spec n 3),
      (Z.eqb_spec n 6), (Z.eqb_spec n 12); cbn [orb]; try reflexivity; lia.
Qed.

(** [get_timeframe] returns accepted timeframes only. *)
Lemma get_timeframe_accepted (unit : string) (bar_size : Z) (tf : TimeFrame) :
  get_timeframe unit bar_size = Ok tf -> timeframe_accepted tf.
Proof.
  unfold get_timeframe.
  repeat match goal with
         | |- context [if ?c then _ else _] => destruct c
         end;
    try discriminate; intros H; now apply TimeFrame_init_inv in H.
Qed.

(** Minute bars of a size below 1440 have a timeframe. *)
Lemma get_timeframe_minute (bar_size : Z) :
  1 <= bar_size < 1440 ->
  get_timeframe "Minute" bar_size
  = Ok (if bar_size <=? 59
        then {| amount := bar_size; tf_unit := Minute |}
        else {| amount := bar_size / 60; tf_unit := Hour |}).
Proof.
  intros Hb. unfold get_timeframe. cbn [upper upper_ascii].
  change (String.eqb _ "MINUTE") with true. cbv iota.
  destruct (Z.leb_spec bar_size 59);
    apply TimeFrame_init_accepted; unfold timeframe_accepted; simpl.
  - lia.
  - split; [apply Z.div_str_pos; lia|].
    apply Z.lt_succ_r. apply Z.div_lt_upper_bound; lia.
Qed.

(** ** Look-back defaults *)

Lemma floordiv_defined (a b : Z) : b <> 0 -> floordiv a b = Ok (a / b).
Proof.
  intros Hb. unfold floordiv.
  destruct (Z.eqb_spec b 0); [contradiction|reflexivity].
Qed.

Lemma default_bars_back_minute_small (bar_size : Z) :
  1 <= bar_size < 30 ->
  exists n, default_bars_back "Minute" bar_size = Ok n /\ 0 <= n.
Proof.
  intros Hb. unfold default_bars_back. cbn [upper upper_ascii].
  change (String.eqb _ "MINUTE") with true. cbn [andb].
  assert (Hne : bar_size <> 0) by lia.
  destruct (Z.ltb_spec bar_size 5);
    [|destruct (Z.ltb_spec bar_size 15);
      [|destruct (Z.ltb_spec bar_size 30); [|lia]]];
    rewrite (floordiv_defined _ _ Hne); eexists; (split; [reflexivity|]);
    apply Z.div_pos; lia.
Qed.

Lemma default_bars_back_other_units (bar_size : Z) :
  1 <= bar_size ->
  default_bars_back "Hour" bar_size = Ok (120 / bar_size)
  /\ default_bars_back "Daily" bar_size = Ok (30 / bar_size)
  /\ default_bars_back "Weekly" bar_size = Ok (26 / bar_size)
  /\ default_bars_back "Monthly" bar_size = Ok (12 / bar_size).
Proof.
  intros Hb. assert (Hne : bar_size <> 0) by lia.
  unfold default_bars_back, floordiv.
  destruct (Z.eqb_spec bar_size 0); [contradiction|].
  repeat split; reflexivity.
Qed.

Lemma default_bars_back_minute_large (bar_size : Z) :
  30 <= bar_size ->
  default_bars_back "Minute" bar_size = Raise (ValueError_unknown_unit "MINUTE").
Proof.
  intros Hb. unfold default_bars_back. cbn [upper upper_ascii].
  change (String.eqb _ "MINUTE") with true. cbn [andb].
  destruct (Z.ltb_spec bar_size 5); [lia|].
  destruct (Z.ltb_spec bar_size 15); [lia|].
  destruct (Z.ltb_spec bar_size 30); [lia|].
  reflexivity.
Qed.

(** ** The session mask *)

Lemma regular_hours_in_session (t : Timestamp) :
  bar_aligned t -> regular_hours t = true <-> in_regular_session t.
Proof.
  intros (Hh & Hm & Hs). unfold regular_hours, in_regular_session.
  assert (Hd : 0 <= dayofweek t < 7)
    by (unfold dayofweek; apply Z.mod_pos_bound; lia).
  rewrite Hs.
  rewrite andb_true_iff, !orb_true_iff, !andb_true_iff.
  rewrite Z.ltb_lt, !Z.eqb_eq, Z.geb_le, Z.gtb_lt, Z.ltb_lt.
  lia.
Qed.

(** ** Inflating the look-back *)

Lemma int_mul_3_7_le (bars_back : Z) :
  0 <= bars_back -> int_mul_3_7 bars_back <= bars_back * 4.
Proof.
  intros Hb. unfold int_mul_3_7.
  rewrite Z.quot_div_nonneg by lia.
  apply Z.div_le_upper_bound; lia.
Qed.

(** The exact quotient is what binary64 computes, on every count below
    5000 and on the powers of ten up to 10^13. *)
Lemma int_mul_3_7_binary64 :
  forallb (fun b => Z.eqb (int_mul_3_7 b) (float_int_mul_3_7 b))
    (map Z.of_nat (seq 0 5000) ++ map (fun k => 10 ^ Z.of_nat k) (seq 0 14))
  = true.
Proof. vm_compute. reflexivity. Qed.

Lemma adjust_bars_back_le (unit : string) (include_outside_hours : bool)
    (bars_back : Z) :
  0 <= bars_back ->
  adjust_bars_back unit include_outside_hours bars_back <= bars_back * 4.
Proof.
  intros Hb. unfold adjust_bars_back.
  destruct (negb include_outside_hours && intraday unit); [|lia].
  destruct (String.eqb (upper unit) "MINUTE"); [now apply int_mul_3_7_le|].
  destruct (String.eqb (upper unit) "HOUR"); lia.
Qed.

Lemma py_max_nonneg (l : list Z) : Forall (fun x => 0 <= x) l -> 0 <= py_max l.
Proof.
  destruct l as [|x rest]; simpl; [lia|].
  intros H. inversion H as [|? ? Hx Hrest]; subst. clear H.
  revert x Hx. induction rest as [|y rest IH]; simpl; intros x Hx; [exact Hx|].
  inversion Hrest; subst. apply IH; [assumption|lia].
Qed.

(** ** Truncating *)

Lemma iloc_from_Forall {A : Type} (P : A -> Prop) (k : Z) (df : list A) :
  Forall P df -> Forall P (iloc_from k df).
Proof.
  intros H. unfold iloc_from.
  destruct (k <? 0); now apply Forall_drop.
Qed.

Lemma truncate_Forall {A : Type} (P : A -> Prop) (truncate_bars : bool)
    (original_bars_back : Z) (bars_df : list A) :
  Forall P bars_df ->
  Forall P (truncate truncate_bars original_bars_back bars_df).
Proof.
  intros H. unfold truncate.
  destruct truncate_bars; [|exact H].
  destruct (_ >=? _); [now apply iloc_from_Forall|exact H].
Qed.

Lemma filter_regular_hours (raw : list Bar) :
  Forall (fun b => regular_hours (timestamp b) = true)
    (List.filter (fun b => regular_hours (timestamp b)) raw).
Proof.
  apply List.Forall_forall. intros b Hb.
  now apply List.filter_In in Hb.
Qed.

Variable indicator_min_bars_back : string -> Z.
Variable is_realtime : bool.
Variable get_stock_bars : nat -> StockBarsRequest -> result (list Bar).

Local Abbreviation run :=
  (get_alpaca_bars indicator_min_bars_back is_realtime get_stock_bars).

Local Abbreviation planned := (plan indicator_min_bars_back is_realtime).

(** ** The plan of a call *)

Lemma plan_inv (symbol unit : string) (bars_back bar_size : Z)
    (indicators : string) (include_outside_hours : bool) (p : Plan) :
  planned symbol unit bars_back bar_size indicators include_outside_hours
  = Ok p ->
  adjusted_bars_back p
  = adjust_bars_back unit include_outside_hours (plan_bars_back p)
  /\ (indicators = "" -> plan_bars_back p = original_bars_back p)
  /\ (indicators <> "" ->
      plan_bars_back p
      = py_max (map indicator_min_bars_back (split "," indicators))
        + bars_back).
Proof.
  unfold plan.
  destruct (get_timeframe unit bar_size) as [tf|e]; simpl; [|discriminate].
  destruct (if bars_back =? 0 then _ else _) as [original|e]; simpl;
    [|discriminate].
  destruct (bars_back_to_datetime _ _ _) as [st|e]; simpl; [|discriminate].
  intros [= <-]. simpl. split; [reflexivity|].
  destruct indicators; split; congruence.
Qed.

(** One level of [get_alpaca_bars]. *)
Lemma get_alpaca_bars_S (fuel call : nat) (symbol unit : string)
    (bars_back bar_size : Z) (indicators : string)
    (truncate_bars include_outside_hours : bool) :
  run (S fuel) call symbol unit bars_back bar_size indicators truncate_bars
    include_outside_hours
  = match planned symbol unit bars_back bar_size indicators
            include_outside_hours with
    | Raise e => ([], Raised e)
    | Ok p =>
        match get_stock_bars call (plan_request p) with
        | Raise e => ([Fetch (plan_request p)], Raised e)
        | Ok [] =>
            ([Fetch (plan_request p)],
             Raised (AttributeError_RangeIndex "tz_convert"))
        | Ok (bar :: bars) =>
            let raw := bar :: bars in
            let filtering := negb include_outside_hours && intraday unit in
            let bars_df :=
              if filtering
              then List.filter (fun b => regular_hours (timestamp b)) raw
              else raw in
            let rows := Z.of_nat (length bars_df) in
            if filtering && (rows <? original_bars_back p) then
              if adjusted_bars_back p <=? plan_bars_back p * 4 then
                let '(events, out) :=
                  run fuel (S call) symbol unit (original_bars_back p * 10)
                    bar_size indicators truncate_bars include_outside_hours in
                (Fetch (plan_request p)
                   :: LogInfo_retrying rows (original_bars_back p)
                   :: events, out)
              else
                ([Fetch (plan_request p);
                  LogWarning_could_not_get (original_bars_back p) rows],
                 Returned (truncate truncate_bars (original_bars_back p)
                                    bars_df))
            else
              ([Fetch (plan_request p)],
               Returned (truncate truncate_bars (original_bars_back p)
                                  bars_df))
        end
    end.
Proof. reflexivity. Qed.

(** One level of [get_alpaca_bars] on an answer that has rows. *)
Lemma get_alpaca_bars_fetched (fuel call : nat) (symbol unit : string)
    (bars_back bar_size : Z) (indicators : string)
    (truncate_bars include_outside_hours : bool) (p : Plan) (raw : list Bar) :
  planned symbol unit bars_back bar_size indicators include_outside_hours
  = Ok p ->
  get_stock_bars call (plan_request p) = Ok raw -> raw <> [] ->
  run (S fuel) call symbol unit bars_back bar_size indicators truncate_bars
    include_outside_hours
  = let filtering := negb include_outside_hours && intraday unit in
    let bars_df :=
      if filtering
      then List.filter (fun b => regular_hours (timestamp b)) raw
      else raw in
    let rows := Z.of_nat (length bars_df) in
    if filtering && (rows <? original_bars_back p) then
      if adjusted_bars_back p <=? plan_bars_back p * 4 then
        let '(events, out) :=
          run fuel (S call) symbol unit (original_bars_back p * 10)
            bar_size indicators truncate_bars include_outside_hours in
        (Fetch (plan_request p)
           :: LogInfo_retrying rows (original_bars_back p)
           :: events, out)
      else
        ([Fetch (plan_request p);
          LogWarning_could_not_get (original_bars_back p) rows],
         Returned (truncate truncate_bars (original_bars_back p) bars_df))
    else
      ([Fetch (plan_request p)],
       Returned (truncate truncate_bars (original_bars_back p) bars_df)).
Proof.
  intros Hp Hraw Hne. rewrite get_alpaca_bars_S, Hp, Hraw.
  destruct raw as [|bar bars]; [contradiction|reflexivity].
Qed.

(** A run that got past its first fetch: the plan, and an answer with
    rows. *)
Lemma get_alpaca_bars_inv (fuel call : nat) (symbol unit : string)
    (bars_back bar_size : Z) (indicators : string)
    (truncate_bars include_outside_hours : bool) (events : list event)
    (bars_df : list Bar) :
  run (S fuel) call symbol unit bars_back bar_size indicators truncate_bars
    include_outside_hours
  = (events, Returned bars_df) ->
  exists p raw,
    planned symbol unit bars_back bar_size indicators include_outside_hours
    = Ok p
    /\ get_stock_bars call (plan_request p) = Ok raw
    /\ raw <> [].
Proof.
  rewrite get_alpaca_bars_S.
  destruct (planned _ _ _ _ _ _) as [p|e]; [|discriminate].
  destruct (get_stock_bars call (plan_request p)) as [[|bar bars]|e] eqn:Hraw;
    [discriminate| |discriminate].
  intros _. exists p, (bar :: bars). auto.
Qed.

(** ** The returned rows *)

(** C7: with [include_outside_hours=False] and the unit Minute (in any
    letter case), every row of a returned table is in the regular session:
    a weekday, from 09:30:00 to 16:00:00, both instants included, given that
    the source stamps its bars on whole minutes; on such timestamps the
    mask keeps exactly the session, so the rows at 09:30 and at 16:00 are
    kept. *)
Theorem get_alpaca_bars_regular_session (fuel call : nat)
    (symbol unit : string) (bars_back bar_size : Z) (indicators : string)
    (truncate_bars : bool) (events : list event) (bars_df : list Bar) :
  (forall n request raw,
      get_stock_bars n request = Ok raw ->
      Forall (fun b => bar_aligned (timestamp b)) raw) ->
  upper unit = "MINUTE" ->
  run fuel call symbol unit bars_back bar_size indicators truncate_bars false
  = (events, Returned bars_df) ->
  Forall (fun b => in_regular_session (timestamp b)) bars_df
  /\ (forall t, bar_aligned t ->
        (regular_hours t = true <-> in_regular_session t)).
Proof.
  intros Haligned Hunit Hrun.
  split; [|exact regular_hours_in_session].
  assert (Hintra : intraday unit = true)
    by (unfold intraday; now rewrite Hunit).
  revert call bars_back events Hrun.
  induction fuel as [|fuel IH]; intros call bars_back events;
    [discriminate|].
  rewrite get_alpaca_bars_S.
  destruct (planned _ _ _ _ _ _) as [p|e]; [|discriminate].
  destruct (get_stock_bars call (plan_request p)) as [[|bar bars]|e] eqn:Hraw;
    [discriminate| |discriminate].
  remember (bar :: bars) as raw eqn:Hne.
  cbn zeta. rewrite Hintra. cbn [negb andb].
  assert (Hrows :
    Forall (fun b => in_regular_session (timestamp b))
      (truncate truncate_bars (original_bars_back p)
         (List.filter (fun b => regular_hours (timestamp b)) raw))).
  { apply truncate_Forall.
    pose proof (Haligned _ _ _ Hraw) as Hal.
    apply List.Forall_forall. intros b Hb.
    apply List.filter_In in Hb as [Hin Hmask].
    apply regular_hours_in_session; [|exact Hmask].
    rewrite List.Forall_forall in Hal. now apply Hal. }
  destruct (_ <? original_bars_back p).
  - destruct (_ <=? _).
    + destruct (run fuel _ _ _ _ _ _ _ _) as [events' out] eqn:Hrec.
      intros [= <- ->]. exact (IH _ _ _ Hrec).
    + intros [= <- <-]. exact Hrows.
  - intros [= <- <-]. exact Hrows.
Qed.

(** ** The retry *)

(** An intraday request with a bar size that has a timeframe, and with a
    look-back, has a plan. *)
Lemma plan_intraday_ok (symbol unit : string) (bars_back bar_size : Z)
    (indicators : string) (include_outside_hours : bool) :
  unit = "Minute" \/ unit = "Hour" ->
  (exists tf, get_timeframe unit bar_size = Ok tf) -> bars_back <> 0 ->
  exists p,
    planned symbol unit bars_back bar_size indicators include_outside_hours
    = Ok p
    /\ original_bars_back p = bars_back.
Proof.
  intros Hunit Htf Hb. unfold plan.
  destruct Htf as [tf ->]. simpl.
  destruct (Z.eqb_spec bars_back 0) as [|_]; [contradiction|]. simpl.
  assert (Hst : forall n, exists st, bars_back_to_datetime unit bar_size n = Ok st).
  { intros n. destruct Hunit as [-> | ->]; eexists; reflexivity. }
  destruct (Hst (adjust_bars_back unit include_outside_hours
                   match indicators with
                   | "" => bars_back
                   | String _ _ =>
                       py_max (map indicator_min_bars_back (split "," indicators))
                       + bars_back
                   end)) as [st ->].
  simpl. eexists. split; reflexivity.
Qed.

Lemma plan_bars_back_nonneg (symbol unit : string) (bars_back bar_size : Z)
    (indicators : string) (include_outside_hours : bool) (p : Plan) :
  (forall i, 0 <= indicator_min_bars_back i) ->
  planned symbol unit bars_back bar_size indicators include_outside_hours
  = Ok p ->
  0 <= bars_back -> 0 <= original_bars_back p -> 0 <= plan_bars_back p.
Proof.
  intros Hm Hp Hb Ho.
  destruct (plan_inv _ _ _ _ _ _ _ Hp) as (_ & Hnone & Hsome).
  destruct indicators as [|c rest].
  - rewrite Hnone by reflexivity. exact Ho.
  - rewrite Hsome by discriminate.
    assert (0 <= py_max (map indicator_min_bars_back (split "," (String c rest)))).
    { apply py_max_nonneg. apply List.Forall_forall.
      intros x Hx. apply List.in_map_iff in Hx as (i & <- & _). apply Hm. }
    lia.
Qed.

(** The guard of the retry holds whenever it is reached: the branch that
    logs the warning and returns is never taken. *)
Lemma get_alpaca_bars_never_warns (fuel call : nat) (symbol unit : string)
    (bars_back bar_size : Z) (indicators : string)
    (truncate_bars include_outside_hours : bool) :
  (forall i, 0 <= indicator_min_bars_back i) -> 0 <= bars_back ->
  forall o r,
    ~ In (LogWarning_could_not_get o r)
        (get_alpaca_bars indicator_min_bars_back is_realtime get_stock_bars
           fuel call symbol unit bars_back bar_size indicators truncate_bars
           include_outside_hours).1.
Proof.
  intros Hm. revert call bars_back.
  induction fuel as [|fuel IH]; intros call bars_back Hb o r; [simpl; tauto|].
  rewrite get_alpaca_bars_S.
  destruct (planned _ _ _ _ _ _) as [p|e] eqn:Hp; [|simpl; tauto].
  destruct (get_stock_bars call (plan_request p)) as [[|bar bars]|e];
    [simpl; intros [H|[]]; discriminate| |simpl; intros [H|[]]; discriminate].
  remember (bar :: bars) as raw eqn:Hne.
  cbn zeta.
  destruct (negb include_outside_hours && intraday unit); cbn [andb];
    [|simpl; intros [H|[]]; discriminate].
  destruct (Z.ltb_spec
              (Z.of_nat (length (List.filter
                                   (fun b => regular_hours (timestamp b)) raw)))
              (original_bars_back p)) as [Hlt|_];
    [|simpl; intros [H|[]]; discriminate].
  assert (Ho : 0 <= original_bars_back p) by lia.
  pose proof (plan_bars_back_nonneg _ _ _ _ _ _ _ Hm Hp Hb Ho) as Hnn.
  destruct (plan_inv _ _ _ _ _ _ _ Hp) as (Hadj & _).
  pose proof (adjust_bars_back_le unit include_outside_hours _ Hnn) as Hle.
  rewrite <- Hadj in Hle.
  destruct (Z.leb_spec (adjusted_bars_back p) (plan_bars_back p * 4)); [|lia].
  destruct (run fuel _ _ _ _ _ _ _ _) as [events out] eqn:Hrec.
  simpl. intros [Hin|[Hin|Hin]]; [discriminate|discriminate|].
  apply (IH (S call) (original_bars_back p * 10) ltac:(lia) o r).
  rewrite Hrec. exact Hin.
Qed.

(** C1 (the code departs from the claim): for the units Minute and Hour
    with [include_outside_hours=False] and a bar size that has a timeframe,
    when every answer of the source has rows but fewer regular-session rows
    than asked ([cap] of them at most, fewer than [bars_back]), the call
    does not return after one retry.  To whatever depth the windows of its
    requests are ones the date library can reach, every level fetches and
    then calls itself again: after [fuel] levels the run has sent [fuel]
    requests, has logged no warning, has returned no table and is in its
    next call. *)
Theorem get_alpaca_bars_underfilled_never_returns (fuel call : nat)
    (symbol unit : string) (bars_back bar_size : Z) (indicators : string)
    (truncate_bars : bool) (cap : Z) :
  unit = "Minute" \/ unit = "Hour" ->
  (exists tf, get_timeframe unit bar_size = Ok tf) ->
  (forall i, 0 <= indicator_min_bars_back i) ->
  (forall n request,
      exists raw,
        get_stock_bars n request = Ok raw
        /\ raw <> []
        /\ Z.of_nat (length (List.filter
                               (fun b => regular_hours (timestamp b)) raw))
           <= cap) ->
  0 <= cap < bars_back ->
  Forall (fun request => window_fits (start request))
    (fetches
       (get_alpaca_bars indicator_min_bars_back is_realtime get_stock_bars
          fuel call symbol unit bars_back bar_size indicators truncate_bars
          false).1) ->
  (get_alpaca_bars indicator_min_bars_back is_realtime get_stock_bars fuel
     call symbol unit bars_back bar_size indicators truncate_bars false).2
  = OutOfFuel
  /\ length (fetches
               (get_alpaca_bars indicator_min_bars_back is_realtime
                  get_stock_bars fuel call symbol unit bars_back bar_size
                  indicators truncate_bars false).1) = fuel
  /\ (forall o r,
        ~ In (LogWarning_could_not_get o r)
            (get_alpaca_bars indicator_min_bars_back is_realtime
               get_stock_bars fuel call symbol unit bars_back bar_size
               indicators truncate_bars false).1).
Proof.
  intros Hunit Htf Hm Hsrc Hcap _. revert call bars_back Hcap.
  induction fuel as [|fuel IH]; intros call bars_back Hcap;
    [split; [reflexivity|split; [reflexivity|simpl; tauto]]|].
  destruct (plan_intraday_ok symbol unit bars_back bar_size indicators false
              Hunit Htf ltac:(lia)) as (p & Hp & Ho).
  destruct (Hsrc call (plan_request p)) as (raw & Hraw & Hne & Hrows).
  rewrite (get_alpaca_bars_fetched _ _ _ _ _ _ _ _ _ _ _ Hp Hraw Hne).
  cbn zeta.
  assert (Hintra : intraday unit = true)
    by (destruct Hunit as [-> | ->]; reflexivity).
  rewrite Hintra. cbn [negb andb].
  destruct (Z.ltb_spec
              (Z.of_nat (length (List.filter
                                   (fun b => regular_hours (timestamp b)) raw)))
              (original_bars_back p)) as [_|Hge]; [|lia].
  assert (Hnn : 0 <= plan_bars_back p)
    by (apply (plan_bars_back_nonneg _ _ _ _ _ _ _ Hm Hp); lia).
  destruct (plan_inv _ _ _ _ _ _ _ Hp) as (Hadj & _).
  pose proof (adjust_bars_back_le unit false _ Hnn) as Hle.
  rewrite <- Hadj in Hle.
  destruct (Z.leb_spec (adjusted_bars_back p) (plan_bars_back p * 4)); [|lia].
  destruct (IH (S call) (original_bars_back p * 10) ltac:(lia))
    as (Hout & Hlen & Hnw).
  destruct (run fuel _ _ _ _ _ _ _ _) as [events out].
  simpl in *. split; [exact Hout|]. split; [now rewrite Hlen|].
  intros o r [Hin|[Hin|Hin]]; [discriminate|discriminate|exact (Hnw o r Hin)].
Qed.

(** C8 (the code departs from the claim): for the unit Minute and a bar
    size from 30 to 1439, [get_timeframe] has a timeframe for the pair
    (minutes up to 59, whole hours above), but [default_bars_back] has no
    branch for it and raises "Unknown unit: MINUTE"; so a request with
    [bars_back=0] raises before any fetch. *)
Theorem default_bars_back_minute_undefined (fuel call : nat)
    (symbol : string) (bar_size : Z) (indicators : string)
    (truncate_bars include_outside_hours : bool) :
  30 <= bar_size < 1440 ->
  (exists tf,
      get_timeframe "Minute" bar_size = Ok tf /\ timeframe_accepted tf)
  /\ default_bars_back "Minute" bar_size
     = Raise (ValueError_unknown_unit "MINUTE")
  /\ get_alpaca_bars indicator_min_bars_back is_realtime get_stock_bars
       (S fuel) call symbol "Minute" 0 bar_size indicators truncate_bars
       include_outside_hours
     = ([], Raised (ValueError_unknown_unit "MINUTE")).
Proof.
  intros Hb.
  pose proof (default_bars_back_minute_large bar_size ltac:(lia)) as Hd.
  pose proof (get_timeframe_minute bar_size ltac:(lia)) as Htf.
  split; [|split; [exact Hd|]].
  - eexists. split; [exact Htf|].
    exact (get_timeframe_accepted _ _ _ Htf).
  - rewrite get_alpaca_bars_S. unfold plan.
    rewrite Htf. simpl. now rewrite Hd.
Qed.

End BarProperties.

(** * The order table over sequences of calls *)

Section CallProperties.

Import Simulation Calls.

Implicit Types (db : gmap N Order) (order : Order) (order_id k : N).
Implicit Types (c : client_call) (cs : list client_call).

Lemma fill_if_open_terms (utcnow : Z) (sym : string) order :
  terms (fill_if_open utcnow sym order) = terms order.
Proof. unfold fill_if_open. now destruct (_ && _). Qed.

Lemma fill_if_open_status (utcnow : Z) (sym : string) order :
  status (fill_if_open utcnow sym order) = status order
  \/ (status order = NEW /\ status (fill_if_open utcnow sym order) = FILLED).
Proof.
  unfold fill_if_open.
  case_bool_decide as Hst; simpl; auto.
  case_bool_decide as Hi; simpl; auto.
Qed.

(** What one call, of any kind and with any arguments, can do to a stored
    row. *)
Lemma perform_row c db k order :
  db !! k = Some order ->
  exists order',
    perform c db !! k = Some order'
    /\ terms order' = terms order
    /\ (status order' = status order
        \/ status order' = CANCELED
        \/ (status order = NEW /\ status order' = FILLED)).
Proof.
  intros Hk.
  destruct c as [uuid4 db_now order_data|utcnow order_id
                 |uuid4 utcnow db_now order_id new_order_data
                 |utcnow sym close_options]; simpl.
  - destruct (submit_order uuid4 db_now order_data db) as [[resp db']|e] eqn:Hs;
      simpl; [|eauto].
    destruct (submit_order_inv _ _ _ _ _ _ Hs) as (Hfresh & -> & _).
    exists order. rewrite lookup_insert_ne by congruence. auto.
  - unfold cancel_order_by_id, _get_order_by_id.
    destruct (db !! order_id) as [o|] eqn:Hid; simpl; [|eauto].
    destruct (decide (order_id = k)) as [->|Hne].
    + assert (o = order) as -> by congruence.
      exists (with_status CANCELED utcnow order).
      rewrite lookup_insert_eq. auto.
    + exists order. rewrite lookup_insert_ne by congruence. auto.
  - destruct (replace_order_by_id _ _ _ _ _ _) as [[resp db']|e] eqn:Hr;
      simpl; [|eauto].
    destruct (replace_order_by_id_inv _ _ _ _ _ _ _ _ Hr)
      as (o & new_order & Hid & _ & Hne & Hfresh & -> & _).
    rewrite lookup_insert_ne by congruence.
    destruct (decide (order_id = k)) as [->|Hne'].
    + assert (o = order) as -> by congruence.
      exists (with_status CANCELED utcnow order).
      rewrite lookup_insert_eq. auto.
    + exists order. rewrite lookup_insert_ne by congruence. auto.
  - destruct (close_position _ _ _ _) as [[u db']|e] eqn:Hc; simpl; [|eauto].
    apply close_position_inv in Hc as ->.
    exists (fill_if_open utcnow sym order).
    rewrite lookup_fmap, Hk. split; [reflexivity|].
    split; [apply fill_if_open_terms|].
    destruct (fill_if_open_status utcnow sym order) as [H|H]; auto.
Qed.

(** X3: over any sequence of client calls, with any arguments, a stored row
    is never deleted and keeps its terms (instrument, quantity, side, the
    three prices, type, class, time in force, creation time); its status at
    the end is the one at the start, or CANCELED, or FILLED after NEW.  So a
    CANCELED row stays CANCELED and no row becomes NEW again. *)
Theorem perform_all_row cs db k order :
  db !! k = Some order ->
  exists order',
    perform_all cs db !! k = Some order'
    /\ terms order' = terms order
    /\ (status order' = status order
        \/ status order' = CANCELED
        \/ (status order = NEW /\ status order' = FILLED))
    /\ (status order = CANCELED -> status order' = CANCELED)
    /\ (status order' = NEW -> status order = NEW).
Proof.
  revert db order. induction cs as [|c cs IH]; intros db order Hk.
  - exists order. simpl. rewrite Hk. auto 6.
  - destruct (perform_row c db k order Hk) as (o1 & Hk1 & Ht1 & Hs1).
    destruct (IH _ _ Hk1) as (o2 & Hk2 & Ht2 & Hs2 & _).
    exists o2. split; [exact Hk2|]. split; [congruence|].
    assert (Hrel : status o2 = status order
                   \/ status o2 = CANCELED
                   \/ (status order = NEW /\ status o2 = FILLED)).
    { destruct Hs1 as [E1|[E1|[E1 E1']]], Hs2 as [E2|[E2|[E2 E2']]];
        try (right; left; congruence);
        try (left; congruence);
        try (right; right; split; congruence);
        congruence. }
    split; [exact Hrel|]. split.
    + intros Hc. destruct Hrel as [E|[E|[E _]]]; congruence.
    + intros Hn. destruct Hrel as [E|[E|[_ E]]]; congruence.
Qed.

(** The tables of [reachable] are the ones sequences of calls produce. *)
Lemma reachable_perform_all db :
  reachable db <-> exists cs, db = perform_all cs ∅.
Proof.
  split.
  - induction 1 as [|uuid4 db_now order_data db _ [cs ->]
                    |utcnow order_id db _ [cs ->]
                    |uuid4 utcnow db_now order_id new_order_data db _ [cs ->]
                    |utcnow sym close_options db _ [cs ->]].
    + exists []. reflexivity.
    + exists (cs ++ [Submit uuid4 db_now order_data]).
      unfold perform_all. now rewrite fold_left_app.
    + exists (cs ++ [Cancel utcnow order_id]).
      unfold perform_all. now rewrite fold_left_app.
    + exists (cs ++ [Replace uuid4 utcnow db_now order_id new_order_data]).
      unfold perform_all. now rewrite fold_left_app.
    + exists (cs ++ [Close utcnow sym close_options]).
      unfold perform_all. now rewrite fold_left_app.
  - intros [cs ->]. induction cs as [|c cs IH] using rev_ind.
    + apply reach_empty.
    + unfold perform_all. rewrite fold_left_app. simpl.
      fold (perform_all cs ∅).
      destruct c; simpl; constructor; exact IH.
Qed.

(** X4: in every table that sequences of client calls produce from the
    empty one, each row is a limit order with a side and a non-zero entry
    price, and its status is NEW, CANCELED or FILLED: no market, stop or
    trailing-stop order is ever stored, and the table's default status
    ACCEPTED never appears. *)
Theorem perform_all_rows cs k order :
  perform_all cs ∅ !! k = Some order ->
  order_type order = LIMIT
  /\ is_Some (side order)
  /\ (exists p, entry_price order = Some p /\ truthy p = true)
  /\ (status order = NEW \/ status order = CANCELED \/ status order = FILLED).
Proof.
  intros Hk.
  assert (Hreach : reachable (perform_all cs ∅))
    by (apply reachable_perform_all; eauto).
  destruct (reachable_created_by_client _ Hreach _ _ Hk) as (Hs & Ht & Hp).
  split; [exact Ht|]. split; [exact Hs|]. split; [exact Hp|].
  clear Hreach Hs Ht Hp. revert k order Hk.
  induction cs as [|c cs IH] using rev_ind; intros k order Hk.
  - unfold perform_all in Hk. simpl in Hk.
    rewrite lookup_empty in Hk. discriminate.
  - unfold perform_all in Hk. rewrite fold_left_app in Hk. simpl in Hk.
    fold (perform_all cs ∅) in Hk.
    set (db := perform_all cs ∅) in *.
    destruct (db !! k) as [o|] eqn:Hold.
    + destruct (perform_row c db k o Hold) as (o' & Hk' & _ & Hrel).
      assert (o' = order) as -> by congruence.
      specialize (IH _ _ Hold).
      destruct Hrel as [E|[E|[_ E]]]; rewrite ?E; auto.
    + destruct c as [uuid4 db_now order_data|utcnow order_id
                     |uuid4 utcnow db_now order_id new_order_data
                     |utcnow sym close_options]; simpl in Hk.
      * destruct (submit_order uuid4 db_now order_data db)
          as [[resp db']|e] eqn:Hs; simpl in Hk; [|congruence].
        destruct (submit_order_inv _ _ _ _ _ _ Hs) as (_ & -> & _).
        destruct (decide (uuid4 = k)) as [->|Hne].
        -- rewrite lookup_insert_eq in Hk. injection Hk as <-. auto.
        -- rewrite lookup_insert_ne in Hk by exact Hne. congruence.
      * unfold cancel_order_by_id, _get_order_by_id in Hk.
        destruct (db !! order_id) as [o|] eqn:Hid; simpl in Hk;
          [|congruence].
        destruct (decide (order_id = k)) as [->|Hne]; [congruence|].
        rewrite lookup_insert_ne in Hk by exact Hne. congruence.
      * destruct (replace_order_by_id _ _ _ _ _ _) as [[resp db']|e] eqn:Hr;
          simpl in Hk; [|congruence].
        unfold replace_order_by_id, _get_order_by_id in Hr.
        destruct (db !! order_id) as [o|] eqn:Hid; simpl in Hr;
          [|discriminate].
        case_bool_decide as Hst; [discriminate|].
        destruct (_create_order _ _ _ _) as [[[n o'] d]|e] eqn:Hc;
          simpl in Hr; [|discriminate].
        injection Hr as _ <-.
        apply create_order_inv in Hc as (-> & -> & _ & -> & _).
        destruct (decide (uuid4 = k)) as [->|Hne].
        -- rewrite lookup_insert_eq in Hk. injection Hk as <-. auto.
        -- rewrite lookup_insert_ne in Hk by exact Hne.
           destruct (decide (order_id = k)) as [->|Hne']; [congruence|].
           rewrite lookup_insert_ne in Hk by exact Hne'. congruence.
      * destruct (close_position _ _ _ _) as [[u db']|e] eqn:Hc;
          simpl in Hk; [|congruence].
        apply close_position_inv in Hc as ->.
        rewrite lookup_fmap, Hold in Hk. discriminate.
Qed.

(** ** Closing twice *)

Lemma fill_if_open_twice (utcnow utcnow' : Z) (sym : string) order :
  fill_if_open utcnow' sym (fill_if_open utcnow sym order)
  = fill_if_open utcnow sym order.
Proof.
  destruct (decide (status order = NEW)) as [Hst|Hst];
    [destruct (decide (instrument order = sym)) as [Hi|Hi]|].
  - rewrite (fill_if_open_match utcnow sym order Hst Hi).
    apply fill_if_open_other. left. simpl. discriminate.
  - rewrite (fill_if_open_other utcnow sym order (or_intror Hi)).
    apply fill_if_open_other. now right.
  - rewrite (fill_if_open_other utcnow sym order (or_introl Hst)).
    apply fill_if_open_other. now left.
Qed.

(** X5: after [close_position] with percentage "100" no order on the
    instrument is NEW any more, and a second full close of the same
    instrument, at any later clock reading, succeeds and changes nothing
    (not even a timestamp). *)
Theorem close_position_twice (utcnow utcnow' : Z) (sym : string)
    options options' db :
  percentage options = Some "100"%string ->
  percentage options' = Some "100"%string ->
  exists db',
    close_position utcnow sym (Some options) db = Ok (tt, db')
    /\ (forall k order,
          db' !! k = Some order -> instrument order = sym ->
          status order <> NEW)
    /\ close_position utcnow' sym (Some options') db' = Ok (tt, db')
    /\ size db' = size db.
Proof.
  intros Hp Hp'.
  exists (fill_if_open utcnow sym <$> db).
  split; [exact (close_position_full_ok _ _ _ _ Hp)|]. split; [|split].
  - intros k o. rewrite lookup_fmap.
    destruct (db !! k) as [o0|]; simpl; [|discriminate].
    intros [= <-] Hi Hst.
    unfold fill_if_open in Hi, Hst.
    case_bool_decide as Hst0; simpl in *; [|contradiction].
    case_bool_decide as Hi0; simpl in *; [discriminate|contradiction].
  - rewrite (close_position_full_ok _ _ _ _ Hp'). do 2 f_equal.
    apply map_eq. intros k. rewrite !lookup_fmap.
    destruct (db !! k) as [o|]; simpl; [|reflexivity].
    now rewrite fill_if_open_twice.
  - apply map_size_fmap.
Qed.

(** ** Unknown keys *)

(** X6: on a key that is not stored, [get_order_by_id],
    [cancel_order_by_id] and [replace_order_by_id] all raise the not-found
    error (replace before it looks at the request or draws a key), and the
    table stays as it was. *)
Theorem unknown_order_id (uuid4 : N) (utcnow db_now : Z) order_id
    (new_order_data : ReplaceOrderRequest) db :
  db !! order_id = None ->
  get_order_by_id order_id db = Raise (ValueError_order_not_found order_id)
  /\ cancel_order_by_id utcnow order_id db
     = Raise (ValueError_order_not_found order_id)
  /\ replace_order_by_id uuid4 utcnow db_now order_id new_order_data db
     = Raise (ValueError_order_not_found order_id)
  /\ perform (Cancel utcnow order_id) db = db
  /\ perform (Replace uuid4 utcnow db_now order_id new_order_data) db = db.
Proof.
  intros Hk.
  assert (Hg : get_order_by_id order_id db
               = Raise (ValueError_order_not_found order_id)).
  { unfold get_order_by_id. now rewrite (get_order_missing _ _ Hk). }
  assert (Hc := cancel_order_by_id_missing utcnow _ _ Hk).
  assert (Hr : replace_order_by_id uuid4 utcnow db_now order_id
                 new_order_data db
               = Raise (ValueError_order_not_found order_id)).
  { unfold replace_order_by_id. now rewrite (get_order_missing _ _ Hk). }
  repeat split; try assumption; simpl.
  - now rewrite Hc.
  - now rewrite Hr.
Qed.

(** ** Reading after writing *)

(** X7: [get_order_by_id] sees what the writing calls committed: after a
    successful [submit_order] the returned id reads back as NEW; after a
    successful [cancel_order_by_id] the id reads back as CANCELED; after a
    successful [replace_order_by_id] the old id reads back as CANCELED and
    the returned id as NEW. *)
Theorem get_order_by_id_after_write (uuid4 : N) (utcnow db_now : Z) order_id
    (order_data : OrderRequest) (new_order_data : ReplaceOrderRequest) db :
  (forall resp db',
      submit_order uuid4 db_now order_data db = Ok (resp, db') ->
      get_order_by_id (submit_id resp) db'
      = Ok {| fetch_status := NEW; fetch_id := submit_id resp |})
  /\ (forall resp db',
        cancel_order_by_id utcnow order_id db = Ok (resp, db') ->
        get_order_by_id order_id db'
        = Ok {| fetch_status := CANCELED; fetch_id := order_id |})
  /\ (forall resp db',
        replace_order_by_id uuid4 utcnow db_now order_id new_order_data db
        = Ok (resp, db') ->
        get_order_by_id order_id db'
        = Ok {| fetch_status := CANCELED; fetch_id := order_id |}
        /\ get_order_by_id (modify_id resp) db'
           = Ok {| fetch_status := NEW; fetch_id := modify_id resp |}
        /\ modify_id resp <> order_id).
Proof.
  split; [|split].
  - intros resp db' Hs.
    assert (Hid : submit_id resp = uuid4).
    { unfold submit_order in Hs.
      destruct (_create_order _ _ _ _) as [[[n o] d]|e] eqn:Hc; simpl in Hs;
        [|discriminate].
      injection Hs as <- _.
      apply create_order_inv in Hc as (-> & _). reflexivity. }
    destruct (submit_order_inv _ _ _ _ _ _ Hs) as (_ & -> & _).
    rewrite Hid. unfold get_order_by_id, _get_order_by_id.
    now rewrite lookup_insert_eq.
  - intros resp db'. unfold cancel_order_by_id, _get_order_by_id.
    destruct (db !! order_id) as [o|]; simpl; [|discriminate].
    intros [= _ <-]. unfold get_order_by_id, _get_order_by_id.
    now rewrite lookup_insert_eq.
  - intros resp db' Hr.
    destruct (replace_order_by_id_inv _ _ _ _ _ _ _ _ Hr)
      as (o & new_order & Hk & _ & Hne & _ & -> & _ & Hid).
    assert (Hnew : status new_order = NEW
                   /\ <[uuid4 := new_order]>
                        (<[order_id := with_status CANCELED utcnow o]> db)
                      !! uuid4 = Some new_order).
    { split; [|apply lookup_insert_eq].
      unfold replace_order_by_id, _get_order_by_id in Hr.
      rewrite Hk in Hr. simpl in Hr.
      case_bool_decide; [discriminate|].
      destruct (_create_order _ _ _ _) as [[[n o'] d]|e] eqn:Hc; simpl in Hr;
        [|discriminate].
      injection Hr as _ Hd.
      apply create_order_inv in Hc as (-> & -> & _ & -> & _).
      assert (Hl := f_equal (fun m => m !! uuid4) Hd). simpl in Hl.
      rewrite !lookup_insert_eq in Hl. injection Hl as <-. reflexivity. }
    destruct Hnew as [Hst Hl].
    unfold get_order_by_id, _get_order_by_id. rewrite Hid, Hl. simpl.
    rewrite Hst. rewrite lookup_insert_ne by exact Hne.
    rewrite lookup_insert_eq. simpl. auto.
Qed.

(** ** What a replacement inherits *)

Lemma replace_order_by_id_row (uuid4 : N) (utcnow db_now : Z) order_id
    (new_order_data : ReplaceOrderRequest) db resp db' :
  replace_order_by_id uuid4 utcnow db_now order_id new_order_data db
  = Ok (resp, db') ->
  exists old,
    db !! order_id = Some old
    /\ modify_id resp = uuid4
    /\ db' !! uuid4
       = Some (new_order_row db_now
                 (_prepare_new_order_request
                    (with_status CANCELED utcnow old) new_order_data))
    /\ modify_limit_price resp
       = entry_price
           (new_order_row db_now
              (_prepare_new_order_request
                 (with_status CANCELED utcnow old) new_order_data)).
Proof.
  unfold replace_order_by_id, _get_order_by_id.
  destruct (db !! order_id) as [old|] eqn:Hk; simpl; [|discriminate].
  case_bool_decide as Hst; [discriminate|].
  destruct (_create_order _ _ _ _) as [[[n o] d]|e] eqn:Hc; simpl;
    [|discriminate].
  intros [= <- <-].
  apply create_order_inv in Hc as (-> & -> & _ & -> & Hcr).
  exists old. split; [reflexivity|]. split; [reflexivity|].
  split; [apply lookup_insert_eq|].
  cbn [modify_limit_price].
  destruct Hcr as (_ & _ & p & Hp & Hz). rewrite Hp. simpl. now rewrite Hz.
Qed.

(** X8: the row a successful [replace_order_by_id] creates takes its
    instrument, side and class from the replaced order and is a LIMIT order
    whatever the type of the replaced one; its entry price is the request's
    limit price when one is given and the old entry price otherwise, and is
    what the response reports; its take-profit is the old one (when that is
    not zero); its stop-loss comes from the request's stop price alone: the
    old stop-loss is never carried over. *)
Theorem replace_order_by_id_inherits (uuid4 : N) (utcnow db_now : Z) order_id
    (new_order_data : ReplaceOrderRequest) db resp db' :
  replace_order_by_id uuid4 utcnow db_now order_id new_order_data db
  = Ok (resp, db') ->
  exists old new,
    db !! order_id = Some old
    /\ db' !! modify_id resp = Some new
    /\ instrument new = instrument old
    /\ side new = side old
    /\ order_type new = LIMIT
    /\ order_class new = order_class old
    /\ entry_price new
       = match new_limit_price new_order_data with
         | Some p => Some p
         | None => entry_price old
         end
    /\ modify_limit_price resp = entry_price new
    /\ take_profit_price new
       = (if truthy_opt (take_profit_price old)
          then take_profit_price old else None)
    /\ stop_loss_price new
       = (if truthy_opt (new_stop_price new_order_data)
          then new_stop_price new_order_data else None).
Proof.
  intros Hr.
  destruct (replace_order_by_id_row _ _ _ _ _ _ _ _ Hr)
    as (old & Hk & Hid & Hnew & Hresp).
  destruct (replace_order_by_id_inv _ _ _ _ _ _ _ _ Hr)
    as (old' & new_order & Hk' & _ & _ & _ & Hdb & Hcr & _).
  assert (old' = old) as -> by congruence.
  rewrite Hdb, lookup_insert_eq in Hnew. injection Hnew as ->.
  eexists old, _. split; [exact Hk|].
  split; [rewrite Hid, Hdb; apply lookup_insert_eq|].
  destruct Hcr as (_ & _ & p & Hp & Hz).
  do 4 (split; [reflexivity|]).
  split; [|split; [exact Hresp|split]].
  - rewrite Hp. simpl in Hp.
    apply create_entry_price_Some in Hp as (_ & Hl & _).
    simpl in Hl. now rewrite Hl.
  - simpl. destruct (take_profit_price old) as [q|]; simpl; [|reflexivity].
    now destruct (truthy q).
  - simpl. destruct (new_stop_price new_order_data) as [q|]; simpl;
      [|reflexivity].
    now destruct (truthy q).
Qed.

End CallProperties.

(** * More on the bar fetcher *)

Section BarRuns.

Import MarketData TimeFrames Windows.

Local Open Scope string_scope.
Local Open Scope Z_scope.

(** ** Units *)

(** X9: for the unit Minute, in any letter case, a bar size from 60 to
    1439 is fetched as hour bars of [bar_size // 60] hours, an accepted
    timeframe, the remainder of the division dropped: the sizes 60 to 119
    all resolve to the timeframe of [get_timeframe("Hour", 1)]. *)
Theorem get_timeframe_minutes_as_hours (unit : string) (bar_size : Z) :
  upper unit = "MINUTE" -> 59 < bar_size < 1440 ->
  get_timeframe unit bar_size = get_timeframe "Hour" (bar_size / 60)
  /\ get_timeframe unit bar_size
     = Ok {| amount := bar_size / 60; tf_unit := Hour |}
  /\ timeframe_accepted {| amount := bar_size / 60; tf_unit := Hour |}
  /\ (bar_size / 60) * 60 <= bar_size < (bar_size / 60) * 60 + 60.
Proof.
  intros Hu Hb.
  assert (Hacc : timeframe_accepted
                   {| amount := bar_size / 60; tf_unit := Hour |}).
  { unfold timeframe_accepted. simpl.
    split; [apply Z.div_str_pos; lia|].
    apply Z.lt_succ_r. apply Z.div_lt_upper_bound; lia. }
  pose proof (TimeFrame_init_accepted _ _ Hacc) as Hinit.
  assert (Hm : get_timeframe unit bar_size
               = Ok {| amount := bar_size / 60; tf_unit := Hour |}).
  { unfold get_timeframe. rewrite Hu.
    change (String.eqb "MINUTE" "MINUTE") with true. cbv iota.
    destruct (Z.leb_spec bar_size 59); [lia|exact Hinit]. }
  assert (Hh : get_timeframe "Hour" (bar_size / 60)
               = Ok {| amount := bar_size / 60; tf_unit := Hour |})
    by exact Hinit.
  split; [now rewrite Hm, Hh|]. split; [exact Hm|].
  pose proof (Z.div_mod bar_size 60 ltac:(lia)) as Hd.
  pose proof (Z.mod_pos_bound bar_size 60 ltac:(lia)) as Hr.
  split; [exact Hacc|lia].
Qed.

(** The five names [bars_back_to_datetime] knows. *)
Lemma bars_back_to_datetime_unknown (unit : string) (bar_size bars_back : Z) :
  unit <> "Minute" -> unit <> "Hour" -> unit <> "Daily" ->
  unit <> "Weekly" -> unit <> "Monthly" ->
  bars_back_to_datetime unit bar_size bars_back
  = Raise (ValueError_unknown_unit unit).
Proof.
  intros H1 H2 H3 H4 H5.
  unfold bars_back_to_datetime, bars_back_to_datetime_interval.
  apply String.eqb_neq in H1, H2, H3, H4, H5.
  now rewrite H1, H2, H3, H4, H5.
Qed.

Variable indicator_min_bars_back : string -> Z.
Variable is_realtime : bool.
Variable get_stock_bars : nat -> StockBarsRequest -> result (list Bar).

Local Abbreviation run :=
  (get_alpaca_bars indicator_min_bars_back is_realtime get_stock_bars).

Local Abbreviation planned := (plan indicator_min_bars_back is_realtime).

(** X10: [get_alpaca_bars] sends a request only for a unit spelled exactly
    Minute, Hour, Daily, Weekly or Monthly.  For any other spelling the call
    raises before it fetches; when the spelling differs only in letter case
    (so that [get_timeframe] resolves it, to an accepted timeframe) and
    [bars_back] is not 0, the error is the unknown-unit error of
    [bars_back_to_datetime]. *)
Theorem get_alpaca_bars_unit_spelling (fuel call : nat)
    (symbol unit : string) (bars_back bar_size : Z) (indicators : string)
    (truncate_bars include_outside_hours : bool) :
  unit <> "Minute" -> unit <> "Hour" -> unit <> "Daily" ->
  unit <> "Weekly" -> unit <> "Monthly" ->
  (exists e,
      get_alpaca_bars indicator_min_bars_back is_realtime get_stock_bars
        (S fuel) call symbol unit bars_back bar_size indicators
        truncate_bars include_outside_hours
      = ([], Raised e))
  /\ (forall tf,
        get_timeframe unit bar_size = Ok tf -> timeframe_accepted tf ->
        bars_back <> 0 ->
        get_alpaca_bars indicator_min_bars_back is_realtime get_stock_bars
          (S fuel) call symbol unit bars_back bar_size indicators
          truncate_bars include_outside_hours
        = ([], Raised (ValueError_unknown_unit unit))).
Proof.
  intros H1 H2 H3 H4 H5.
  pose proof (bars_back_to_datetime_unknown unit bar_size) as Hst.
  specialize (fun n => Hst n H1 H2 H3 H4 H5).
  split.
  - rewrite get_alpaca_bars_S. unfold plan.
    destruct (get_timeframe unit bar_size) as [tf|e]; simpl; [|eauto].
    destruct (if bars_back =? 0 then _ else _) as [original|e]; simpl;
      [|eauto].
    rewrite Hst. simpl. eauto.
  - intros tf Htf _ Hb. rewrite get_alpaca_bars_S. unfold plan.
    rewrite Htf. simpl.
    destruct (Z.eqb_spec bars_back 0); [contradiction|]. simpl.
    rewrite Hst. reflexivity.
Qed.

(** ** Inflation *)

(** X11: the look-back [get_alpaca_bars] fetches for is the requested one
    when outside hours are included or the unit is not Minute or Hour, and
    otherwise lies between the requested look-back and four times that. *)
Theorem adjust_bars_back_bounds (unit : string) (include_outside_hours : bool)
    (bars_back : Z) :
  0 <= bars_back ->
  bars_back <= adjust_bars_back unit include_outside_hours bars_back
            <= bars_back * 4
  /\ (include_outside_hours = true \/ intraday unit = false ->
      adjust_bars_back unit include_outside_hours bars_back = bars_back).
Proof.
  intros Hb. split.
  - split; [|now apply adjust_bars_back_le].
    unfold adjust_bars_back.
    destruct (negb include_outside_hours && intraday unit); [|lia].
    destruct (String.eqb (upper unit) "MINUTE").
    + unfold int_mul_3_7. rewrite Z.quot_div_nonneg by lia.
      apply Z.div_le_lower_bound; lia.
    + destruct (String.eqb (upper unit) "HOUR"); lia.
  - intros [-> | Hi]; unfold adjust_bars_back; [reflexivity|].
    rewrite Hi. now rewrite andb_false_r.
Qed.

(** ** Runs that return *)

Lemma truncate_drop {A : Type} (original : Z) (df : list A) :
  0 < original ->
  truncate true original df
  = drop (length df - Z.to_nat original) df.
Proof.
  intros Ho. unfold truncate, iloc_from.
  destruct (Z.geb_spec (Z.of_nat (length df)) original) as [Hge|Hlt].
  - destruct (Z.ltb_spec (- original) 0); [|lia].
    f_equal. lia.
  - replace (length df - Z.to_nat original)%nat with 0%nat by lia.
    reflexivity.
Qed.

Lemma truncate_suffix {A : Type} (truncate_bars : bool) (original : Z)
    (df : list A) :
  truncate truncate_bars original df `suffix_of` df.
Proof.
  unfold truncate, iloc_from.
  destruct truncate_bars; [|reflexivity].
  destruct (_ >=? _); [|reflexivity].
  destruct (_ <? _); apply suffix_drop.
Qed.

(** A request with a look-back, for one of the five unit names and with a
    bar size that has a timeframe, has a plan. *)
Lemma plan_named_ok (symbol unit : string) (bars_back bar_size : Z)
    (indicators : string) (include_outside_hours : bool) :
  unit = "Minute" \/ unit = "Hour" \/ unit = "Daily" \/ unit = "Weekly"
  \/ unit = "Monthly" ->
  (exists tf, get_timeframe unit bar_size = Ok tf) ->
  bars_back <> 0 ->
  exists p,
    planned symbol unit bars_back bar_size indicators include_outside_hours
    = Ok p
    /\ original_bars_back p = bars_back.
Proof.
  intros Hunit Htf Hb.
  destruct Hunit as [Hu|[Hu|Hu]];
    [apply plan_intraday_ok; auto|apply plan_intraday_ok; auto|].
  unfold plan.
  destruct Htf as [tf ->]. simpl.
  destruct (Z.eqb_spec bars_back 0) as [|_]; [contradiction|]. simpl.
  assert (Hst : forall n, exists st,
               bars_back_to_datetime unit bar_size n = Ok st)
    by (intros n; destruct Hu as [->|[->| ->]]; eexists; reflexivity).
  destruct (Hst (adjust_bars_back unit include_outside_hours
                   match indicators with
                   | "" => bars_back
                   | String _ _ =>
                       py_max (map indicator_min_bars_back
                                 (split "," indicators))
                       + bars_back
                   end)) as [st ->].
  simpl. eexists. split; reflexivity.
Qed.

(** X12: for Daily, Weekly and Monthly bars, and for Minute and Hour bars
    when outside hours are included, with a bar size that has a timeframe
    and a window the date library can reach, a call with a positive
    [bars_back] and [truncate_bars=True] whose request is answered with a
    table that has rows sends exactly that one request and returns the
    trailing [bars_back] rows of the answer, all of them when the answer
    has fewer: there is no filter, no retry and no warning. *)
Theorem get_alpaca_bars_single_fetch (fuel call : nat) (symbol unit : string)
    (bars_back bar_size : Z) (indicators : string)
    (include_outside_hours : bool) :
  unit = "Daily" \/ unit = "Weekly" \/ unit = "Monthly"
  \/ (include_outside_hours = true /\ (unit = "Minute" \/ unit = "Hour")) ->
  (exists tf, get_timeframe unit bar_size = Ok tf) ->
  0 < bars_back ->
  Forall (fun request => window_fits (start request))
    (fetches
       (get_alpaca_bars indicator_min_bars_back is_realtime get_stock_bars
          (S fuel) call symbol unit bars_back bar_size indicators true
          include_outside_hours).1) ->
  exists request,
    forall raw,
      get_stock_bars call request = Ok raw -> raw <> [] ->
      get_alpaca_bars indicator_min_bars_back is_realtime get_stock_bars
        (S fuel) call symbol unit bars_back bar_size indicators true
        include_outside_hours
      = ([Fetch request],
         Returned (drop (length raw - Z.to_nat bars_back) raw))
      /\ length (drop (length raw - Z.to_nat bars_back) raw)
         = Nat.min (length raw) (Z.to_nat bars_back).
Proof.
  intros Hunit Htf Hb _.
  assert (Hname : unit = "Minute" \/ unit = "Hour" \/ unit = "Daily"
                  \/ unit = "Weekly" \/ unit = "Monthly") by tauto.
  destruct (plan_named_ok symbol unit bars_back bar_size indicators
              include_outside_hours Hname Htf ltac:(lia)) as (p & Hp & Ho).
  exists (plan_request p). intros raw Hraw Hne.
  split; [|rewrite length_drop; lia].
  rewrite (get_alpaca_bars_fetched _ _ _ _ _ _ _ _ _ _ _ _ _ _ Hp Hraw Hne).
  cbn zeta.
  assert (Hf : negb include_outside_hours && intraday unit = false).
  { destruct Hunit as [->|[->|[->|[-> _]]]]; try reflexivity;
      now destruct include_outside_hours. }
  rewrite Hf. cbn [andb]. rewrite Ho.
  now rewrite truncate_drop by exact Hb.
Qed.

(** X13: for Minute and Hour bars without outside hours, with a bar size
    that has a timeframe and windows the date library can reach, when the
    first answer has rows but fewer regular-session rows than [bars_back]
    and the second has at least ten times [bars_back] of them, the call
    sends two requests and, with [truncate_bars=True], returns ten times the
    rows that were asked for: the retry replaces the requested count by its
    tenfold. *)
Theorem get_alpaca_bars_retry_tenfold (fuel call : nat) (symbol unit : string)
    (bars_back bar_size : Z) (indicators : string) (raw0 raw1 : list Bar) :
  unit = "Minute" \/ unit = "Hour" ->
  (exists tf, get_timeframe unit bar_size = Ok tf) ->
  (forall i, 0 <= indicator_min_bars_back i) ->
  0 < bars_back ->
  (forall request, get_stock_bars call request = Ok raw0) ->
  (forall request, get_stock_bars (S call) request = Ok raw1) ->
  raw0 <> [] ->
  Z.of_nat (length (List.filter (fun b => regular_hours (timestamp b)) raw0))
  < bars_back ->
  bars_back * 10
  <= Z.of_nat (length (List.filter
                         (fun b => regular_hours (timestamp b)) raw1)) ->
  Forall (fun request => window_fits (start request))
    (fetches
       (get_alpaca_bars indicator_min_bars_back is_realtime get_stock_bars
          (S (S fuel)) call symbol unit bars_back bar_size indicators true
          false).1) ->
  exists request0 request1 bars_df,
    get_alpaca_bars indicator_min_bars_back is_realtime get_stock_bars
      (S (S fuel)) call symbol unit bars_back bar_size indicators true false
    = ([Fetch request0;
        LogInfo_retrying
          (Z.of_nat (length (List.filter
                               (fun b => regular_hours (timestamp b)) raw0)))
          bars_back;
        Fetch request1],
       Returned bars_df)
    /\ Z.of_nat (length bars_df) = bars_back * 10
    /\ bars_df
       `suffix_of` List.filter (fun b => regular_hours (timestamp b)) raw1.
Proof.
  intros Hunit Htf Hm Hb Hsrc0 Hsrc1 Hne0 Hlt Hge _.
  assert (Hne1 : raw1 <> []) by (intros ->; simpl in Hge; lia).
  assert (Hintra : intraday unit = true)
    by (destruct Hunit as [-> | ->]; reflexivity).
  destruct (plan_intraday_ok indicator_min_bars_back is_realtime symbol unit
              bars_back bar_size indicators false Hunit Htf ltac:(lia))
    as (p0 & Hp0 & Ho0).
  destruct (plan_intraday_ok indicator_min_bars_back is_realtime symbol unit
              (bars_back * 10) bar_size indicators false Hunit Htf
              ltac:(lia))
    as (p1 & Hp1 & Ho1).
  exists (plan_request p0), (plan_request p1).
  eexists. split.
  - rewrite (get_alpaca_bars_fetched _ _ _ _ _ _ _ _ _ _ _ _ _ _ Hp0
               (Hsrc0 _) Hne0).
    cbn zeta. rewrite Hintra. cbn [negb andb]. rewrite Ho0.
    destruct (Z.ltb_spec
                (Z.of_nat (length (List.filter
                                     (fun b => regular_hours (timestamp b))
                                     raw0))) bars_back); [|lia].
    assert (Hnn : 0 <= plan_bars_back p0).
    { apply (plan_bars_back_nonneg _ _ _ _ _ _ _ _ _ Hm Hp0); lia. }
    destruct (plan_inv _ _ _ _ _ _ _ _ _ Hp0) as (Hadj & _).
    pose proof (adjust_bars_back_le unit false _ Hnn) as Hle.
    rewrite <- Hadj in Hle.
    destruct (Z.leb_spec (adjusted_bars_back p0) (plan_bars_back p0 * 4));
      [|lia].
    rewrite (get_alpaca_bars_fetched _ _ _ _ _ _ _ _ _ _ _ _ _ _ Hp1
               (Hsrc1 _) Hne1).
    cbn zeta. rewrite Hintra. cbn [negb andb]. rewrite Ho1.
    destruct (Z.ltb_spec
                (Z.of_nat (length (List.filter
                                     (fun b => regular_hours (timestamp b))
                                     raw1))) (bars_back * 10)); [lia|].
    reflexivity.
  - split; [|apply truncate_suffix].
    rewrite truncate_drop by lia. rewrite length_drop. lia.
Qed.

(** X14: whenever [get_alpaca_bars] returns a table, the table is a
    trailing run of the answer to one of the requests the call sent, taken
    after the outside-hours filter when that applies: rows are neither
    made up nor reordered. *)
Theorem get_alpaca_bars_rows_from_source (fuel call : nat)
    (symbol unit : string) (bars_back bar_size : Z) (indicators : string)
    (truncate_bars include_outside_hours : bool) (events : list event)
    (bars_df : list Bar) :
  get_alpaca_bars indicator_min_bars_back is_realtime get_stock_bars fuel call
    symbol unit bars_back bar_size indicators truncate_bars
    include_outside_hours
  = (events, Returned bars_df) ->
  exists n request raw,
    In request (fetches events)
    /\ get_stock_bars n request = Ok raw
    /\ bars_df
       `suffix_of`
         (if negb include_outside_hours && intraday unit
          then List.filter (fun b => regular_hours (timestamp b)) raw
          else raw).
Proof.
  revert call bars_back events.
  induction fuel as [|fuel IH]; intros call bars_back events; [discriminate|].
  rewrite get_alpaca_bars_S.
  destruct (planned _ _ _ _ _ _) as [p|e]; [|discriminate].
  destruct (get_stock_bars call (plan_request p)) as [[|bar bars]|e] eqn:Hraw;
    [discriminate| |discriminate].
  remember (bar :: bars) as raw eqn:Hne.
  cbn zeta.
  destruct (negb include_outside_hours && intraday unit) eqn:Hf; cbn [andb].
  - destruct (_ <? original_bars_back p).
    + destruct (_ <=? _).
      * destruct (run fuel _ _ _ _ _ _ _ _) as [events' out] eqn:Hrec.
        intros [= <- ->].
        destruct (IH _ _ _ Hrec) as (n & request & raw' & Hin & Hsrc & Hsuf).
        exists n, request, raw'. split; [|auto].
        simpl. right. exact Hin.
      * intros [= <- <-]. exists call, (plan_request p), raw.
        split; [simpl; auto|]. split; [exact Hraw|apply truncate_suffix].
    + intros [= <- <-]. exists call, (plan_request p), raw.
      split; [simpl; auto|]. split; [exact Hraw|apply truncate_suffix].
  - intros [= <- <-]. exists call, (plan_request p), raw.
    split; [simpl; auto|]. split; [exact Hraw|apply truncate_suffix].
Qed.

End BarRuns.

(** * The callers of the bar fetcher *)

Section BarToolProperties.

Import MarketData TimeFrames BarTools.

Local Open Scope string_scope.
Local Open Scope Z_scope.

Lemma iloc_from_tail {A : Type} (n : Z) (df : list A) :
  0 < n -> iloc_from (- n) df = drop (length df - Z.to_nat n) df.
Proof.
  intros Hn. unfold iloc_from.
  destruct (Z.ltb_spec (- n) 0); [|lia]. f_equal. lia.
Qed.

Lemma drop_suffix_le {A : Type} (i j : nat) (l : list A) :
  (i <= j)%nat -> drop j l `suffix_of` drop i l.
Proof.
  intros Hij. replace j with (i + (j - i))%nat by lia.
  rewrite <- drop_drop. apply suffix_drop.
Qed.

Variable indicator_min_bars_back : string -> Z.
Variable is_realtime : bool.
Variable get_stock_bars : nat -> StockBarsRequest -> result (list Bar).

Local Abbreviation run :=
  (get_alpaca_bars indicator_min_bars_back is_realtime get_stock_bars).

Local Abbreviation plot :=
  (plot_alpaca_bars_with_indicators indicator_min_bars_back is_realtime
     get_stock_bars).

(** ** Plotting *)


(** X16: when [plot_alpaca_bars_with_indicators] returns, for a
    [bars_back] that is not negative, the plotted rows are a trailing run
    of the table [get_alpaca_bars] returned for the larger of [bars_back]
    and the default look-back (fetched without truncation), the CSV rows
    are a trailing run of the plotted rows, neither is empty, and the CSV
    has at most [bars_back] rows when [bars_back] is positive. *)
Theorem plot_alpaca_bars_rows (fuel : nat) (symbol unit : string)
    (bars_back bar_size : Z) (indicators : string)
    (include_outside_hours : bool) (events : list event)
    (plotted csv : list Bar) :
  0 <= bars_back ->
  plot_alpaca_bars_with_indicators indicator_min_bars_back is_realtime
    get_stock_bars fuel symbol unit bars_back bar_size indicators
    include_outside_hours
  = (events, ToolReturned (plotted, csv)) ->
  csv <> [] /\ plotted <> []
  /\ csv `suffix_of` plotted
  /\ (0 < bars_back -> (length csv <= Z.to_nat bars_back)%nat)
  /\ exists default bars_df,
       default_bars_back unit bar_size = Ok default
       /\ get_alpaca_bars indicator_min_bars_back is_realtime get_stock_bars
            fuel 0 symbol unit (Z.max bars_back default) bar_size indicators
            false include_outside_hours
          = (events, Returned bars_df)
       /\ plotted `suffix_of` bars_df.
Proof.
  intros Hb. unfold plot_alpaca_bars_with_indicators.
  destruct (default_bars_back unit bar_size) as [default|e]; [|discriminate].
  cbn zeta.
  destruct (run fuel 0%nat symbol unit (Z.max bars_back default) bar_size
              indicators false include_outside_hours)
    as [events' [bars_df|e|]] eqn:Hrun; [|discriminate|discriminate].
  set (m := Z.max bars_back default) in *.
  destruct bars_df as [|b0 rest] eqn:Hdf; [discriminate|].
  rewrite <- Hdf in *.
  destruct (iloc_from (- m) bars_df) as [|p0 prest] eqn:Hpl; [discriminate|].
  rewrite <- Hpl. intros [= <- <- <-].
  assert (Hlen : (0 < length bars_df)%nat) by (rewrite Hdf; simpl; lia).
  assert (Hplne : iloc_from (- m) bars_df <> []) by (rewrite Hpl; discriminate).
  assert (Hplsuf : iloc_from (- m) bars_df `suffix_of` bars_df).
  { unfold iloc_from. destruct (_ <? _); apply suffix_drop. }
  destruct (Z.eqb_spec bars_back 0) as [->|Hne].
  - split; [exact Hplne|]. split; [exact Hplne|].
    split; [reflexivity|]. split; [lia|].
    exists default, bars_df. auto.
  - assert (Hpos : 0 < bars_back) by lia.
    assert (Hm : 0 < m) by lia.
    rewrite (iloc_from_tail bars_back) by exact Hpos.
    rewrite (iloc_from_tail m) in * by exact Hm.
    split.
    { intros Hnil. apply (f_equal length) in Hnil.
      rewrite length_drop in Hnil. simpl in Hnil. lia. }
    split; [exact Hplne|]. split.
    { apply drop_suffix_le. lia. }
    split; [intros _; rewrite length_drop; lia|].
    exists default, bars_df. auto.
Qed.

(** ** The most recent bar *)

Lemma gather_bars_returned (fuel : nat) (symbol_list : list string)
    (bar_size : Z) (bar_unit : string) (include_outside_hours : bool)
    (dfs : list (string * list Bar)) :
  gather_bars indicator_min_bars_back is_realtime get_stock_bars fuel
    symbol_list bar_size bar_unit include_outside_hours
  = ToolReturned dfs ->
  map fst dfs = symbol_list
  /\ forall symbol df,
       In (symbol, df) dfs ->
       exists events,
         run fuel 0%nat symbol bar_unit 1 bar_size "" false
           include_outside_hours
         = (events, Returned df).
Proof.
  revert dfs. induction symbol_list as [|symbol rest IH]; intros dfs; simpl.
  - intros [= <-]. split; [reflexivity|]. intros ? ? [].
  - destruct (run fuel 0%nat symbol bar_unit 1 bar_size "" false
                include_outside_hours) as [events [df|e|]] eqn:Hrun.
    + destruct (gather_bars _ _ _ _ rest _ _ _) as [dfs'| | |];
        try discriminate.
      intros [= <-]. destruct (IH dfs' eq_refl) as [Hfst Hall].
      split; [simpl; now rewrite Hfst|].
      intros s d [[= <- <-]|Hin]; eauto.
    + discriminate.
    + destruct (gather_bars _ _ _ _ rest _ _ _); discriminate.
Qed.

Lemma last_bars_returned (dfs : list (string * list Bar))
    (acc bars : gmap string Bar) :
  last_bars dfs acc = ToolReturned bars ->
  forall symbol,
    (exists df ohlcv,
        In (symbol, df) dfs /\ last df = Some ohlcv
        /\ bars !! symbol = Some ohlcv)
    \/ (~ In symbol (map fst dfs) /\ bars !! symbol = acc !! symbol).
Proof.
  revert acc. induction dfs as [|[s0 df0] rest IH]; intros acc; simpl.
  - intros [= <-] symbol. right. auto.
  - destruct (last df0) as [o0|] eqn:Hlast; [|discriminate].
    intros Hrest symbol.
    destruct (IH _ Hrest symbol) as [(df & o & Hin & Hl & Hb)|[Hnot Hb]].
    + left. exists df, o. auto.
    + destruct (decide (s0 = symbol)) as [->|Hne].
      * left. exists df0, o0. rewrite Hb, lookup_insert_eq. auto.
      * right. rewrite Hb, lookup_insert_ne by exact Hne.
        split; [|reflexivity]. intros [H|H]; [contradiction|auto].
Qed.

(** X17: when [get_most_recent_bar] returns, its dictionary has an entry
    exactly for the symbols of the list, and the entry of a symbol is the
    last row of the table [get_alpaca_bars] returned for that symbol with
    [bars_back=1], no indicators and [truncate_bars=False]. *)
Theorem get_most_recent_bar_entries (fuel : nat) (symbol_list : list string)
    (bar_size : Z) (bar_unit : string) (include_outside_hours : bool)
    (bars : gmap string Bar) :
  get_most_recent_bar indicator_min_bars_back is_realtime get_stock_bars fuel
    symbol_list bar_size bar_unit include_outside_hours
  = ToolReturned bars ->
  forall symbol,
    (In symbol symbol_list ->
     exists events df ohlcv,
       get_alpaca_bars indicator_min_bars_back is_realtime get_stock_bars
         fuel 0 symbol bar_unit 1 bar_size "" false include_outside_hours
       = (events, Returned df)
       /\ last df = Some ohlcv
       /\ bars !! symbol = Some ohlcv)
    /\ (~ In symbol symbol_list -> bars !! symbol = None).
Proof.
  unfold get_most_recent_bar.
  destruct (gather_bars _ _ _ _ _ _ _ _) as [dfs|e| |] eqn:Hg;
    try discriminate.
  intros Hl symbol.
  destruct (gather_bars_returned _ _ _ _ _ _ Hg) as [Hfst Hall].
  destruct (last_bars_returned _ _ _ Hl symbol)
    as [(df & o & Hin & Hlast & Hb)|[Hnot Hb]].
  - split.
    + intros _. destruct (Hall _ _ Hin) as [events Hrun].
      exists events, df, o. auto.
    + intros Hnot. contradict Hnot. rewrite <- Hfst.
      apply in_map_iff. exists (symbol, df). auto.
  - rewrite Hfst in Hnot. split; [contradiction|].
    intros _. rewrite Hb. apply lookup_empty.
Qed.

(** With a look-back, the plan keeps it as the original one. *)
Lemma plan_original (symbol unit : string) (bars_back bar_size : Z)
    (indicators : string) (include_outside_hours : bool) (p : Plan) :
  plan indicator_min_bars_back is_realtime symbol unit bars_back bar_size
    indicators include_outside_hours = Ok p ->
  bars_back <> 0 -> original_bars_back p = bars_back.
Proof.
  unfold plan. intros Hp Hne.
  destruct (get_timeframe unit bar_size) as [tf|e]; simpl in Hp;
    [|discriminate].
  destruct (Z.eqb_spec bars_back 0) as [|_]; [contradiction|]. simpl in Hp.
  destruct (bars_back_to_datetime _ _ _) as [st|e]; simpl in Hp;
    [|discriminate].
  injection Hp as <-. reflexivity.
Qed.

(** Under the outside-hours filter and without indicators, a returned
    table that was not truncated has at least as many rows as were asked
    for, all of them rows of the regular session. *)
Lemma get_alpaca_bars_filled (fuel call : nat) (symbol unit : string)
    (bars_back bar_size : Z) (events : list event) (bars_df : list Bar) :
  intraday unit = true -> 0 < bars_back ->
  run fuel call symbol unit bars_back bar_size "" false false
  = (events, Returned bars_df) ->
  bars_back <= Z.of_nat (length bars_df)
  /\ exists n request raw,
       get_stock_bars n request = Ok raw
       /\ bars_df = List.filter (fun b => regular_hours (timestamp b)) raw.
Proof.
  intros Hintra. revert call bars_back events.
  induction fuel as [|fuel IH]; intros call bars_back events Hb;
    [discriminate|].
  rewrite get_alpaca_bars_S.
  destruct (plan _ _ _ _ _ _ _ _) as [p|e] eqn:Hp; [|discriminate].
  destruct (get_stock_bars call (plan_request p)) as [[|bar bars]|e] eqn:Hraw;
    [discriminate| |discriminate].
  remember (bar :: bars) as raw eqn:Hne.
  cbn zeta. rewrite Hintra. cbn [negb andb].
  pose proof (plan_original _ _ _ _ _ _ _ Hp ltac:(lia)) as Ho.
  destruct (plan_inv _ _ _ _ _ _ _ _ _ Hp) as (Hadj & Hnone & _).
  specialize (Hnone eq_refl).
  destruct (Z.ltb_spec
              (Z.of_nat (length (List.filter
                                   (fun b => regular_hours (timestamp b))
                                   raw)))
              (original_bars_back p)) as [Hlt|Hge].
  - pose proof (adjust_bars_back_le unit false (plan_bars_back p)
                  ltac:(lia)) as Hle.
    rewrite <- Hadj in Hle.
    destruct (Z.leb_spec (adjusted_bars_back p) (plan_bars_back p * 4));
      [|lia].
    destruct (run fuel _ _ _ _ _ _ _ _) as [events' out] eqn:Hrec.
    intros [= <- ->].
    assert (H10 : 0 < original_bars_back p * 10) by lia.
    destruct (IH _ _ _ H10 Hrec) as [Hlen Hsrc].
    split; [lia|exact Hsrc].
  - intros [= <- <-]. unfold truncate. split; [lia|eauto].
Qed.

(** X18: for Minute and Hour bars without outside hours,
    [get_most_recent_bar] never stops on an empty table: it does not end
    with the [IndexError] of [iloc[-1]], because a call of
    [get_alpaca_bars] with [bars_back=1] returns only tables that have a
    row. *)
Theorem get_most_recent_bar_no_index_error (fuel : nat)
    (symbol_list : list string) (bar_size : Z) (bar_unit : string) :
  intraday bar_unit = true ->
  get_most_recent_bar indicator_min_bars_back is_realtime get_stock_bars fuel
    symbol_list bar_size bar_unit false
  <> ToolIndexError.
Proof.
  intros Hintra. unfold get_most_recent_bar.
  destruct (gather_bars _ _ _ _ _ _ _ _) as [dfs|e| |] eqn:Hg;
    try discriminate.
  - destruct (gather_bars_returned _ _ _ _ _ _ Hg) as [_ Hall].
    assert (Hne : forall symbol df, In (symbol, df) dfs -> df <> []).
    { intros symbol df Hin. destruct (Hall _ _ Hin) as [events Hrun].
      destruct (get_alpaca_bars_filled _ _ _ _ 1 _ _ _ Hintra ltac:(lia) Hrun)
        as [Hlen _].
      intros ->. simpl in Hlen. lia. }
    clear Hg Hall. generalize (∅ : gmap string Bar) as acc.
    induction dfs as [|[s0 df0] rest IH]; intros acc; simpl; [discriminate|].
    destruct (last df0) as [o0|] eqn:Hlast.
    + apply IH. intros symbol df Hin. apply (Hne symbol). now right.
    + apply last_None in Hlast. contradict Hlast.
      apply (Hne s0). now left.
  - intros _. clear -Hg. revert Hg.
    induction symbol_list as [|symbol rest IH]; simpl; [discriminate|].
    destruct (run fuel 0%nat symbol bar_unit 1 bar_size "" false false)
      as [events [df|e|]].
    + destruct (gather_bars _ _ _ _ rest _ _ _); try discriminate.
      intros _. now apply IH.
    + discriminate.
    + destruct (gather_bars _ _ _ _ rest _ _ _); discriminate.
Qed.

(** X19: for Minute and Hour bars without outside hours, from a source
    that stamps its bars on whole minutes, every bar in the dictionary of
    [get_most_recent_bar] lies in the regular session: a weekday, from
    09:30:00 to 16:00:00. *)
Theorem get_most_recent_bar_in_session (fuel : nat)
    (symbol_list : list string) (bar_size : Z) (bar_unit : string)
    (bars : gmap string Bar) :
  intraday bar_unit = true ->
  (forall n request raw,
      get_stock_bars n request = Ok raw ->
      Forall (fun b => bar_aligned (timestamp b)) raw) ->
  get_most_recent_bar indicator_min_bars_back is_realtime get_stock_bars fuel
    symbol_list bar_size bar_unit false
  = ToolReturned bars ->
  forall symbol ohlcv,
    bars !! symbol = Some ohlcv -> in_regular_session (timestamp ohlcv).
Proof.
  intros Hintra Haligned Hret symbol ohlcv Hb.
  unfold get_most_recent_bar in Hret.
  destruct (gather_bars _ _ _ _ _ _ _ _) as [dfs|e| |] eqn:Hg;
    try discriminate.
  destruct (gather_bars_returned _ _ _ _ _ _ Hg) as [_ Hall].
  destruct (last_bars_returned _ _ _ Hret symbol)
    as [(df & o & Hin & Hlast & Hb')|[_ Hb']].
  - assert (o = ohlcv) as -> by congruence.
    destruct (Hall _ _ Hin) as [events Hrun].
    destruct (get_alpaca_bars_filled _ _ _ _ 1 _ _ _ Hintra ltac:(lia) Hrun)
      as [_ (n & request & raw & Hraw & ->)].
    apply last_Some_elem_of, list_elem_of_In in Hlast.
    apply List.filter_In in Hlast as [Hinraw Hmask].
    pose proof (Haligned _ _ _ Hraw) as Hal.
    rewrite List.Forall_forall in Hal.
    apply regular_hours_in_session; [now apply Hal|exact Hmask].
  - rewrite Hb', lookup_empty in Hb. discriminate.
Qed.

End BarToolProperties.

(** * The order-filled resource and the technical rating *)

Section ResourceProperties.

Import Simulation Resources Research.

Local Open Scope string_scope.

(** X20: with the simulation client, [has_order_filled] never returns a
    truth value: for an id that is not stored it raises the client's
    not-found error, and for a stored one it raises an [AttributeError],
    because the response of [get_order_by_id] has the fields [status] and
    [id] only and no [filled_qty]. *)
Theorem has_order_filled_never_returns (order_id : N) (db : gmap N Order) :
  (forall b, has_order_filled order_id db <> inr b)
  /\ (db !! order_id = None ->
      has_order_filled order_id db
      = inl (ClientRaised (ValueError_order_not_found order_id)))
  /\ (forall order,
        db !! order_id = Some order ->
        has_order_filled order_id db
        = inl (AttributeError "FetchOrderResponse" "filled_qty")).
Proof.
  unfold has_order_filled, get_order_by_id, _get_order_by_id.
  destruct (db !! order_id) as [order|]; simpl.
  - split; [discriminate|]. split; [discriminate|reflexivity].
  - split; [discriminate|]. split; [reflexivity|discriminate].
Qed.

(** The order of binary64 is transitive. *)
Lemma SFleb_trans (a b c : spec_float) :
  SFleb a b = true -> SFleb b c = true -> SFleb a c = true.
Proof.
  unfold SFleb, SFcompare.
  destruct a as [sa|sa| |sa ma ea], b as [sb|sb| |sb mb eb],
           c as [sc|sc| |sc mc ec];
    try discriminate; try reflexivity;
    repeat match goal with s : bool |- _ => destruct s end;
    try discriminate; try reflexivity;
    repeat match goal with
           | |- context [Z.compare ?x ?y] => destruct (Z.compare_spec x y)
           end;
    try discriminate; try reflexivity; try lia; subst;
    fold (Pos.compare ma mb); fold (Pos.compare mb mc);
    fold (Pos.compare ma mc);
    repeat match goal with
           | |- context [Pos.compare ?x ?y] => destruct (Pos.compare_spec x y)
           end;
    simpl; try discriminate; try reflexivity; try lia.
Qed.

Lemma float_leb_trans (a b c : float) :
  (a <=? b)%float = true -> (b <=? c)%float = true -> (a <=? c)%float = true.
Proof. rewrite !FloatAxioms.leb_spec. apply SFleb_trans. Qed.

(** X21: [format_technical_rating] is monotone: a rating that is at least
    another one (in the order of floats) never gets a more bearish label;
    and a rating that is not a number gets "Strong Sell". *)
Theorem format_technical_rating_monotone (r1 r2 : float) :
  ((r1 <=? r2)%float = true ->
   (bullishness (format_technical_rating r1)
    <= bullishness (format_technical_rating r2))%nat)
  /\ (is_nan r1 = true -> format_technical_rating r1 = "Strong Sell").
Proof.
  split.
  - intros Hle. unfold format_technical_rating.
    destruct (0.5 <=? r1)%float eqn:H1;
      [|destruct (0.1 <=? r1)%float eqn:H2;
        [|destruct (-0.1 <=? r1)%float eqn:H3;
          [|destruct (-0.5 <=? r1)%float eqn:H4]]];
      repeat match goal with
             | H : (?c <=? r1)%float = true |- _ =>
                 rewrite (float_leb_trans _ _ _ H Hle); clear H
             end;
      repeat match goal with
             | |- context [(?c <=? r2)%float] => destruct (c <=? r2)%float
             end;
      vm_compute; lia.
  - unfold is_nan. intros Hn. apply negb_true_iff in Hn.
    rewrite FloatAxioms.eqb_spec in Hn.
    assert (Hnan : Prim2SF r1 = S754_nan).
    { destruct (Prim2SF r1) as [s|s| |s m e]; try reflexivity;
        unfold SFeqb, SFcompare in Hn.
      - discriminate.
      - now destruct s.
      - rewrite Z.compare_refl in Hn.
        fold (Pos.compare m m) in Hn. rewrite Pos.compare_refl in Hn.
        now destruct s. }
    unfold format_technical_rating. rewrite !FloatAxioms.leb_spec, Hnan.
    reflexivity.
Qed.

End ResourceProperties.

(** * The theorems on the sample data *)

Import Simulation MarketData Samples.

Local Open Scope string_scope.
Local Open Scope Z_scope.

(** ** Orders *)

Lemma one_order_row : one_order !! 1%N = Some first_row.
Proof. vm_compute. reflexivity. Qed.


Lemma submit_order_non_limit_rejected_witness :
  entry_price (new_order_row 1000 market_order) = None
  /\ (exists column,
        submit_order 7%N 1000 market_order one_order
        = Raise (IntegrityError_not_null column))
  /\ table_after one_order (submit_order 7%N 1000 market_order one_order)
     = one_order.
Proof.
  apply (submit_order_non_limit_rejected 7%N 1000 market_order one_order).
  simpl. discriminate.
Defined.



Lemma replace_canceled_order_fails_witness :
  replace_order_by_id 2%N 2000 2001 1%N raise_limit one_canceled
  = Raise (ValueError_already_canceled 1%N)
  /\ table_after one_canceled
       (replace_order_by_id 2%N 2000 2001 1%N raise_limit one_canceled)
     = one_canceled.
Proof.
  refine (proj1 (replace_canceled_order_fails 2%N 2000 2001 1%N raise_limit
                   one_canceled (with_status CANCELED 1500 first_row) _) _).
  - vm_compute. reflexivity.
  - reflexivity.
Defined.

Lemma cancel_canceled_order_succeeds_witness :
  exists db',
    cancel_order_by_id 2500 1%N one_canceled
    = Ok ({| cancel_status := CANCELED; cancel_id := 1%N |}, db')
    /\ (updated_timestamp <$> db' !! 1%N) = Some 2500.
Proof.
  destruct (cancel_canceled_order_succeeds 2500 1%N one_canceled
              (with_status CANCELED 1500 first_row))
    as (db' & Hc & Hrow & _).
  - vm_compute. reflexivity.
  - reflexivity.
  - exists db'. split; [exact Hc|]. now rewrite Hrow.
Defined.

(** The four rows of [mixed_table]. *)
Lemma mixed_table_rows :
  mixed_table !! 1%N = Some (new_order_row 1000 limit_order)
  /\ mixed_table !! 3%N
     = Some (with_status CANCELED 1500 (new_order_row 1010 limit_order))
  /\ mixed_table !! 4%N
     = Some (with_status FILLED 950 (new_order_row 900 limit_order))
  /\ mixed_table !! 5%N = Some (new_order_row 1100 msft_order)
  /\ mixed_table !! 2%N = None.
Proof. vm_compute. repeat split; reflexivity. Qed.

Lemma close_position_full_witness :
  exists db',
    close_position 3000 "AAPL" (Some full_close) mixed_table = Ok (tt, db')
    /\ (status <$> db' !! 1%N) = Some FILLED
    /\ (updated_timestamp <$> db' !! 1%N) = Some 3000
    /\ (Calls.terms <$> db' !! 1%N) = (Calls.terms <$> mixed_table !! 1%N)
    /\ db' !! 3%N = mixed_table !! 3%N
    /\ (status <$> db' !! 3%N) = Some CANCELED
    /\ db' !! 4%N = mixed_table !! 4%N
    /\ (updated_timestamp <$> db' !! 4%N) = Some 950
    /\ db' !! 5%N = mixed_table !! 5%N
    /\ (status <$> db' !! 5%N) = Some NEW
    /\ db' !! 2%N = None.
Proof.
  destruct mixed_table_rows as (H1 & H3 & H4 & H5 & H2).
  destruct (close_position_full 3000 "AAPL" full_close mixed_table)
    as (db' & Hc & Hfill & Hframe & Hnone).
  - reflexivity.
  - destruct (Hfill _ _ H1 eq_refl eq_refl)
      as (filled & Hf & Hfst & Hfts & Hfterms).
    assert (N3 : status (with_status CANCELED 1500
                           (new_order_row 1010 limit_order)) <> NEW)
      by discriminate.
    assert (N4 : status (with_status FILLED 950
                           (new_order_row 900 limit_order)) <> NEW)
      by discriminate.
    assert (N5 : instrument (new_order_row 1100 msft_order) <> "AAPL")
      by discriminate.
    pose proof (Hframe _ _ H3 (or_introl N3)) as H3'.
    pose proof (Hframe _ _ H4 (or_introl N4)) as H4'.
    pose proof (Hframe _ _ H5 (or_intror N5)) as H5'.
    pose proof (Hnone _ H2) as H2'.
    exists db'. split; [exact Hc|].
    rewrite Hf, H3', H4', H5', H2'. rewrite H1, H3, H4, H5.
    cbn [fmap option_fmap option_map].
    rewrite Hfst, Hfts, Hfterms. repeat split; reflexivity.
Defined.

Lemma close_position_partial_rejected_witness :
  close_position 3000 "AAPL" (Some half_close) one_order
  = Raise Exception_only_full_liquidation
  /\ table_after one_order
       (close_position 3000 "AAPL" (Some half_close) one_order)
     = one_order.
Proof.
  apply (close_position_partial_rejected 3000 "AAPL" half_close one_order).
  simpl. discriminate.
Defined.

(** ** Bars *)

(** The first three levels of a call for ten minute bars on a source with
    three regular-session bars: look-backs of 10, 100 and 1000 bars, and no
    table. *)
Lemma get_alpaca_bars_retry_trace :
  get_alpaca_bars no_warmup false session_edges 3 0 "AAPL" "Minute" 10 1 ""
    true false
  = (let request hours :=
       {| symbol_or_symbols := "AAPL";
          timeframe := {| amount := 1; tf_unit := Minute |};
          start := {| interval := BusinessHour 1; steps := hours + 10 |};
          asof_today := true |} in
     [Fetch (request (37 / 60 + 1)); LogInfo_retrying 3 10;
      Fetch (request (370 / 60 + 1)); LogInfo_retrying 3 100;
      Fetch (request (3700 / 60 + 1)); LogInfo_retrying 3 1000],
     OutOfFuel).
Proof. vm_compute. reflexivity. Qed.

Lemma get_alpaca_bars_never_warns_witness :
  ~ In (LogWarning_could_not_get 10 3)
      (get_alpaca_bars no_warmup false session_edges 3 0 "AAPL" "Minute" 10 1
         "" true false).1.
Proof.
  apply (get_alpaca_bars_never_warns no_warmup false session_edges 3 0 "AAPL"
           "Minute" 10 1 "" true false).
  - intros i. unfold no_warmup. lia.
  - lia.
Defined.

Lemma get_alpaca_bars_underfilled_witness :
  (get_alpaca_bars no_warmup false session_edges 3 0 "AAPL" "Minute" 10 1 ""
     true false).2 = OutOfFuel
  /\ length (fetches
               (get_alpaca_bars no_warmup false session_edges 3 0 "AAPL"
                  "Minute" 10 1 "" true false).1) = 3%nat
  /\ (forall o r,
        ~ In (LogWarning_could_not_get o r)
            (get_alpaca_bars no_warmup false session_edges 3 0 "AAPL"
               "Minute" 10 1 "" true false).1).
Proof.
  apply (get_alpaca_bars_underfilled_never_returns no_warmup false
           session_edges 3 0 "AAPL" "Minute" 10 1 "" true 3).
  - left. reflexivity.
  - eexists. reflexivity.
  - intros i. unfold no_warmup. lia.
  - intros n request. eexists. split; [reflexivity|].
    split; [discriminate|]. vm_compute. discriminate.
  - lia.
  - rewrite get_alpaca_bars_retry_trace. simpl.
    repeat constructor; vm_compute; discriminate.
Defined.

Lemma get_alpaca_bars_regular_session_witness :
  Forall (fun b => in_regular_session (timestamp b))
    [bar_at monday 9 30; bar_at monday 12 0; bar_at monday 16 0].
Proof.
  refine (proj1 (get_alpaca_bars_regular_session no_warmup false session_edges
                   1 0 "AAPL" "Minute" 3 1 "" true _ _ _ _ _)).
  - intros n request raw [= <-]. repeat constructor; simpl; lia.
  - reflexivity.
  - vm_compute. reflexivity.
Defined.

Lemma default_bars_back_minute_undefined_witness :
  default_bars_back "Minute" 30 = Raise (ValueError_unknown_unit "MINUTE")
  /\ get_alpaca_bars no_warmup false session_edges 1 0 "AAPL" "Minute" 0 30 ""
       true false
     = ([], Raised (ValueError_unknown_unit "MINUTE")).
Proof.
  destruct (default_bars_back_minute_undefined no_warmup false session_edges
              0 0
              "AAPL" 30 "" true false) as (_ & Hd & Hrun).
  - lia.
  - split; [exact Hd|exact Hrun].
Defined.

Import Calls TimeFrames BarTools Resources Research.

(** ** Sequences of calls *)

Lemma perform_all_row_witness :
  exists order',
    perform_all session one_order !! 1%N = Some order'
    /\ terms order' = terms first_row
    /\ (status first_row = CANCELED -> status order' = CANCELED)
    /\ (status order' = NEW -> status first_row = NEW).
Proof.
  destruct (perform_all_row session one_order 1%N first_row)
    as (order' & Hk & Ht & _ & Hc & Hn).
  - vm_compute. reflexivity.
  - exists order'. auto.
Defined.

Lemma perform_all_rows_witness :
  order_type (with_status CANCELED 2000 first_row) = LIMIT
  /\ is_Some (side (with_status CANCELED 2000 first_row))
  /\ (exists p,
        entry_price (with_status CANCELED 2000 first_row) = Some p
        /\ truthy p = true)
  /\ (status (with_status CANCELED 2000 first_row) = NEW
      \/ status (with_status CANCELED 2000 first_row) = CANCELED
      \/ status (with_status CANCELED 2000 first_row) = FILLED).
Proof.
  apply (perform_all_rows session 1%N (with_status CANCELED 2000 first_row)).
  vm_compute. reflexivity.
Defined.

Lemma close_position_twice_witness :
  exists db',
    close_position 3000 "AAPL" (Some full_close) one_order = Ok (tt, db')
    /\ close_position 4000 "AAPL" (Some full_close) db' = Ok (tt, db')
    /\ size db' = 1%nat.
Proof.
  destruct (close_position_twice 3000 4000 "AAPL" full_close full_close
              one_order) as (db' & Hc & _ & Hc' & Hsize).
  - reflexivity.
  - reflexivity.
  - exists db'. split; [exact Hc|]. split; [exact Hc'|].
    rewrite Hsize. reflexivity.
Defined.

Lemma unknown_order_id_witness :
  get_order_by_id 9%N one_order = Raise (ValueError_order_not_found 9%N)
  /\ cancel_order_by_id 1500 9%N one_order
     = Raise (ValueError_order_not_found 9%N)
  /\ replace_order_by_id 2%N 2000 2001 9%N raise_limit one_order
     = Raise (ValueError_order_not_found 9%N)
  /\ perform (Cancel 1500 9%N) one_order = one_order
  /\ perform (Replace 2%N 2000 2001 9%N raise_limit) one_order = one_order.
Proof.
  apply (unknown_order_id 2%N 1500 2001 9%N raise_limit one_order).
  vm_compute. reflexivity.
Defined.

Lemma replace_order_by_id_inherits_witness :
  exists resp db' new,
    replace_order_by_id 6%N 2000 2001 5%N raise_limit legs_table
    = Ok (resp, db')
    /\ db' !! modify_id resp = Some new
    /\ order_type new = LIMIT
    /\ order_class new = SIMPLE
    /\ entry_price new = Some 155%float
    /\ take_profit_price new = Some 380%float
    /\ stop_loss_price new = None.
Proof.
  destruct (replace_order_by_id 6%N 2000 2001 5%N raise_limit legs_table)
    as [[resp db']|e] eqn:Hr; [|vm_compute in Hr; discriminate].
  destruct (replace_order_by_id_inherits 6%N 2000 2001 5%N raise_limit
              legs_table resp db' Hr)
    as (old & new & Hold & Hnew & _ & _ & Hty & Hcl & He & _ & Htp & Hsl).
  assert (old = new_order_row 1000 limit_with_legs) as ->.
  { assert (H : legs_table !! 5%N = Some (new_order_row 1000 limit_with_legs))
      by (vm_compute; reflexivity).
    congruence. }
  exists resp, db', new. split; [reflexivity|]. split; [exact Hnew|].
  split; [exact Hty|]. split; [exact Hcl|].
  split; [exact He|]. split; [exact Htp|exact Hsl].
Defined.

(** ** Units, single fetches and the retry *)

Lemma get_timeframe_minutes_as_hours_witness :
  get_timeframe "Minute" 90 = get_timeframe "Hour" 1
  /\ get_timeframe "minute" 119
     = Ok {| amount := 1; tf_unit := Hour |}.
Proof.
  split.
  - apply (get_timeframe_minutes_as_hours "Minute" 90); [reflexivity|lia].
  - apply (get_timeframe_minutes_as_hours "minute" 119); [reflexivity|lia].
Defined.

Lemma get_alpaca_bars_unit_spelling_witness :
  get_alpaca_bars no_warmup false session_edges 1 0 "AAPL" "minute" 10 1 ""
    true false
  = ([], Raised (ValueError_unknown_unit "minute")).
Proof.
  refine (proj2 (get_alpaca_bars_unit_spelling no_warmup false session_edges
                   0 0 "AAPL" "minute" 10 1 "" true false _ _ _ _ _)
            {| amount := 1; tf_unit := Minute |} _ _ _);
    try discriminate; try reflexivity.
  unfold timeframe_accepted. simpl. lia.
Defined.

Lemma adjust_bars_back_bounds_witness :
  10 <= adjust_bars_back "Minute" false 10 <= 40
  /\ adjust_bars_back "Daily" false 10 = 10.
Proof.
  destruct (adjust_bars_back_bounds "Minute" false 10) as [Hb _]; [lia|].
  destruct (adjust_bars_back_bounds "Daily" false 10) as [_ He]; [lia|].
  split; [exact Hb|]. apply He. right. reflexivity.
Defined.

Lemma get_alpaca_bars_single_fetch_witness :
  exists request,
    get_alpaca_bars no_warmup false week_of_days 1 0 "AAPL" "Daily" 3 1 ""
      true false
    = ([Fetch request],
       Returned [bar_at (monday + 2) 0 0; bar_at (monday + 3) 0 0;
                 bar_at (monday + 4) 0 0]).
Proof.
  destruct (get_alpaca_bars_single_fetch no_warmup false week_of_days 0 0
              "AAPL" "Daily" 3 1 "" false) as [request Hreq].
  - left. reflexivity.
  - eexists. reflexivity.
  - lia.
  - vm_compute. repeat constructor; discriminate.
  - exists request.
    destruct (Hreq _ eq_refl ltac:(discriminate)) as [Hrun _]. exact Hrun.
Defined.

Lemma get_alpaca_bars_retry_tenfold_witness :
  exists request0 request1 bars_df,
    get_alpaca_bars no_warmup false thin_then_full 2 0 "AAPL" "Minute" 1 30 ""
      true false
    = ([Fetch request0; LogInfo_retrying 0 1; Fetch request1],
       Returned bars_df)
    /\ Z.of_nat (length bars_df) = 10.
Proof.
  destruct (get_alpaca_bars_retry_tenfold no_warmup false thin_then_full 0 0
              "AAPL" "Minute" 1 30 "" [bar_at saturday 10 0] half_hours)
    as (request0 & request1 & bars_df & Hrun & Hlen & _).
  - left. reflexivity.
  - eexists. reflexivity.
  - intros i. unfold no_warmup. lia.
  - lia.
  - reflexivity.
  - reflexivity.
  - discriminate.
  - vm_compute. reflexivity.
  - vm_compute. discriminate.
  - vm_compute. repeat constructor; discriminate.
  - exists request0, request1, bars_df. split; [exact Hrun|exact Hlen].
Defined.

Lemma get_alpaca_bars_rows_from_source_witness :
  exists n request raw,
    session_edges n request = Ok raw
    /\ [bar_at monday 12 0; bar_at monday 16 0]
       `suffix_of` List.filter (fun b => regular_hours (timestamp b)) raw.
Proof.
  destruct (get_alpaca_bars_rows_from_source no_warmup false session_edges
              1 0 "AAPL" "Minute" 2 1 "" true false
              (get_alpaca_bars no_warmup false session_edges 1 0 "AAPL"
                 "Minute" 2 1 "" true false).1
              [bar_at monday 12 0; bar_at monday 16 0])
    as (n & request & raw & _ & Hsrc & Hsuf).
  - vm_compute. reflexivity.
  - exists n, request, raw. split; [exact Hsrc|exact Hsuf].
Defined.

(** ** Plots and most recent bars *)


Lemma plot_alpaca_bars_rows_witness :
  exists events plotted csv,
    plot_alpaca_bars_with_indicators no_warmup false week_of_days 1
      "AAPL" "Daily" 2 1 "" false
    = (events, ToolReturned (plotted, csv))
    /\ csv `suffix_of` plotted
    /\ (length csv <= 2)%nat.
Proof.
  destruct (plot_alpaca_bars_with_indicators no_warmup false
              week_of_days 1 "AAPL" "Daily" 2 1 "" false)
    as [events [[plotted csv]|e| |]] eqn:Hplot;
    try (vm_compute in Hplot; discriminate).
  destruct (plot_alpaca_bars_rows no_warmup false week_of_days 1 "AAPL"
              "Daily" 2 1 "" false events plotted csv ltac:(lia) Hplot)
    as (_ & _ & Hsuf & Hlen & _).
  exists events, plotted, csv. split; [reflexivity|].
  split; [exact Hsuf|]. apply Hlen. lia.
Defined.

Lemma get_most_recent_bar_entries_witness :
  exists bars events df ohlcv,
    get_most_recent_bar no_warmup false session_edges 1
      ["AAPL"; "MSFT"] 1 "Minute" false
    = ToolReturned bars
    /\ get_alpaca_bars no_warmup false session_edges 1 0 "MSFT" "Minute" 1 1
         "" false false
       = (events, Returned df)
    /\ last df = Some ohlcv
    /\ bars !! "MSFT" = Some ohlcv
    /\ bars !! "GOOG" = None.
Proof.
  destruct (get_most_recent_bar no_warmup false session_edges 1
              ["AAPL"; "MSFT"] 1 "Minute" false)
    as [bars|e| |] eqn:Hret; try (vm_compute in Hret; discriminate).
  pose proof (get_most_recent_bar_entries no_warmup false session_edges 1
                ["AAPL"; "MSFT"] 1 "Minute" false bars Hret) as Hent.
  destruct (Hent "MSFT") as [Hin _].
  destruct (Hent "GOOG") as [_ Hout].
  destruct Hin as (events & df & ohlcv & Hrun & Hlast & Hb).
  { simpl. auto. }
  exists bars, events, df, ohlcv.
  split; [reflexivity|]. split; [exact Hrun|]. split; [exact Hlast|].
  split; [exact Hb|]. apply Hout.
  simpl. intros [H|[H|[]]]; discriminate.
Defined.

Lemma get_most_recent_bar_no_index_error_witness :
  get_most_recent_bar no_warmup false session_edges 1
    ["AAPL"; "MSFT"] 1 "Minute" false
  <> ToolIndexError.
Proof.
  apply (get_most_recent_bar_no_index_error no_warmup false session_edges 1
           ["AAPL"; "MSFT"] 1 "Minute").
  reflexivity.
Defined.

Lemma get_most_recent_bar_in_session_witness :
  in_regular_session (timestamp (bar_at monday 16 0)).
Proof.
  apply (get_most_recent_bar_in_session no_warmup false session_edges 1
           ["AAPL"] 1 "Minute" {["AAPL" := bar_at monday 16 0]} eq_refl)
    with (symbol := "AAPL").
  - intros n request raw [= <-]. repeat constructor; simpl; lia.
  - vm_compute. reflexivity.
  - vm_compute. reflexivity.
Defined.
